(** * Scene composer: the tag-selection engine of [src/node.py]

    A shallow embedding of the [Node] class: the string helpers it relies
    on ([str.join], [str.replace], [str.split], the [in] operator), the
    weighted-set parser [parse_tag_distribution], the resolver
    [select_tags], the serializer [stringify_tags] and the entry point
    [run_node].

    Python values are an inductive type; a [dict] is an association list
    in insertion order (iteration order matters to the parser); an
    exception is a value of [exn] carried by [result].  Floats are
    modelled by exact rationals: comparisons are exact, arithmetic is
    not rounded. *)

From Stdlib Require Import String Ascii List ZArith QArith Lia Bool.
Import ListNotations.
Open Scope string_scope.

(** ** Exceptions and results *)

Inductive exn : Type :=
| TypeError
| ValueError
| KeyError
| IndexError
| AttributeError
| UnboundLocalError
| LookupError
| Unmodelled.

Inductive result (A : Type) : Type :=
| Ok (a : A)
| Raise (e : exn).

Arguments Ok {A} a.
Arguments Raise {A} e.

Definition bind {A B : Type} (r : result A) (k : A -> result B) : result B :=
  match r with
  | Ok a => k a
  | Raise e => Raise e
  end.

Notation "x <- r ;; k" := (bind r (fun x => k))
  (at level 61, r at next level, right associativity).
Notation "' pat <- r ;; k" := (bind r (fun x => let 'pat := x in k))
  (at level 61, pat pattern, r at next level, right associativity).

Definition is_ok {A : Type} (r : result A) : bool :=
  match r with Ok _ => true | Raise _ => false end.

(** ** Python string primitives *)

Module PyStr.

(** [s.startswith(p)] *)
Fixpoint starts_with (p s : string) : bool :=
  match p, s with
  | EmptyString, _ => true
  | String a p', String b s' => Ascii.eqb a b && starts_with p' s'
  | String _ _, EmptyString => false
  end.

(** [s[k:]] *)
Fixpoint drop (k : nat) (s : string) : string :=
  match k, s with
  | O, _ => s
  | S k', String _ s' => drop k' s'
  | S _, EmptyString => EmptyString
  end.

(** [old in s], for a non-empty [old]: some position of [s] starts with
    [old]. *)
Fixpoint contains (old s : string) : bool :=
  starts_with old s ||
  match s with
  | EmptyString => false
  | String _ s' => contains old s'
  end.

(** [sep.join(l)] *)
Fixpoint join (sep : string) (l : list string) : string :=
  match l with
  | [] => ""
  | [x] => x
  | x :: rest => x ++ sep ++ join sep rest
  end.

(** [s.replace(old, new)] for a non-empty [old]: a left-to-right scan for
    non-overlapping occurrences.  [skip] counts the characters of the
    current occurrence that are still to be passed over. *)
Fixpoint replace_from (old new : string) (skip : nat) (s : string) : string :=
  match s with
  | EmptyString => EmptyString
  | String c s' =>
      match skip with
      | S k => replace_from old new k s'
      | O =>
          if starts_with old s
          then new ++ replace_from old new (String.length old - 1) s'
          else String c (replace_from old new 0 s')
      end
  end.

Definition replace (old new s : string) : string :=
  replace_from old new 0 s.

(** [s.split(sep)] for a non-empty [sep]; [cur] is the piece being read. *)
Fixpoint split_from (sep : string) (skip : nat) (cur s : string)
  : list string :=
  match s with
  | EmptyString => [cur]
  | String c s' =>
      match skip with
      | S k => split_from sep k cur s'
      | O =>
          if starts_with sep s
          then cur :: split_from sep (String.length sep - 1) "" s'
          else split_from sep 0 (cur ++ String c "") s'
      end
  end.

Definition split (sep s : string) : list string :=
  split_from sep 0 "" s.

(** The characters of a string, as [for c in s] yields them. *)
Fixpoint chars (s : string) : list string :=
  match s with
  | EmptyString => []
  | String c s' => String c "" :: chars s'
  end.

End PyStr.

(** ** The serializer *)

(** [Node.stringify_tags], on tags that are already strings ([map(str, _)]
    is the identity on them). *)
Definition stringify_tags (tags : list string) : string :=
  let tags := PyStr.join ", " tags in
  let tags := PyStr.replace ", ," "," tags in
  tags.

(** ** Python values *)

(** The values a TOML document and the node inputs can hold.  A [dict]
    keeps its entries in insertion order, keys distinct. *)
#[warnings="-register-all"] Inductive pyval : Type :=
| VNone
| VBool (b : bool)
| VInt (z : Z)
| VFloat (q : Q)
| VStr (s : string)
| VList (l : list pyval)
| VDict (d : list (string * pyval)).

Module PyDict.

(** [k in d] and [d[k]] *)
Fixpoint lookup (d : list (string * pyval)) (k : string) : option pyval :=
  match d with
  | [] => None
  | (k', v) :: d' => if String.eqb k' k then Some v else lookup d' k
  end.

(** [f d[k]] when [k in d]; the entry is the first one under [k]. *)
Definition lookup_with {A : Type} (f : pyval -> A) (k : string)
  : list (string * pyval) -> option A :=
  fix go (d : list (string * pyval)) : option A :=
    match d with
    | [] => None
    | (k', v) :: d' => if String.eqb k' k then Some (f v) else go d'
    end.

Definition mem (d : list (string * pyval)) (k : string) : bool :=
  match lookup d k with Some _ => true | None => false end.

(** [d.get(k, default)] *)
Definition get (d : list (string * pyval)) (k : string) (default : pyval)
  : pyval :=
  match lookup d k with Some v => v | None => default end.

(** [d[k]], raising [KeyError] on a missing key *)
Definition getitem (d : list (string * pyval)) (k : string) : result pyval :=
  match lookup d k with Some v => Ok v | None => Raise KeyError end.

(** [d[k] = v]: an existing key keeps its position, a new one is appended *)
Fixpoint set (d : list (string * pyval)) (k : string) (v : pyval)
  : list (string * pyval) :=
  match d with
  | [] => [(k, v)]
  | (k', v') :: d' =>
      if String.eqb k' k then (k', v) :: d' else (k', v') :: set d' k v
  end.

End PyDict.

(** [key in v] for a string [key] *)
Definition py_in (key : string) (v : pyval) : result bool :=
  match v with
  | VStr s => Ok (PyStr.contains key s)
  | VList l =>
      Ok (existsb (fun x => match x with
                            | VStr s => String.eqb s key
                            | _ => false
                            end) l)
  | VDict d => Ok (PyDict.mem d key)
  | _ => Raise TypeError
  end.

(** [len(v)] *)
Definition py_len (v : pyval) : result Z :=
  match v with
  | VStr s => Ok (Z.of_nat (String.length s))
  | VList l => Ok (Z.of_nat (List.length l))
  | VDict d => Ok (Z.of_nat (List.length d))
  | _ => Raise TypeError
  end.

(** [for x in v]: the items an iteration yields *)
Definition py_iter (v : pyval) : result (list pyval) :=
  match v with
  | VStr s => Ok (map VStr (PyStr.chars s))
  | VList l => Ok l
  | VDict d => Ok (map (fun kv => VStr (fst kv)) d)
  | _ => Raise TypeError
  end.

(** The number a value stands for in a comparison ([bool] is an [int]). *)
Definition as_number (v : pyval) : option Q :=
  match v with
  | VBool b => Some (if b then 1 else 0)%Q
  | VInt z => Some (inject_Z z)
  | VFloat q => Some q
  | _ => None
  end.

(** [int(v)]: a float is truncated towards zero; parsing a string is not
    modelled. *)
Definition py_int (v : pyval) : result Z :=
  match v with
  | VBool b => Ok (if b then 1 else 0)%Z
  | VInt z => Ok z
  | VFloat q => Ok (Z.quot (Qnum q) (Zpos (Qden q)))
  | VStr _ => Raise Unmodelled
  | _ => Raise TypeError
  end.

(** [min(a, len)] where [len] is an [int]: the first argument unless the
    second is strictly smaller. *)
Definition py_min (a : pyval) (len : Z) : result pyval :=
  match as_number a with
  | Some qa => Ok (if Qlt_le_dec (inject_Z len) qa then VInt len else a)
  | None => Raise TypeError
  end.

(** [r > p] for the float [r] drawn by the generator *)
Definition py_gt (r : Q) (p : pyval) : result bool :=
  match as_number p with
  | Some qp => Ok (if Qlt_le_dec qp r then true else false)
  | None =>
      match p with
      | VStr _ | VNone | VDict _ => Raise TypeError
      | _ => Raise Unmodelled
      end
  end.

(** [l[i]] on a list *)
Definition py_index (l : list pyval) (i : nat) : result pyval :=
  match nth_error l i with
  | Some v => Ok v
  | None => Raise IndexError
  end.

(** The [size] argument of [Generator.choice]: a non-negative [int].
    Shapes (a list), [bool] sizes and [None] (one item, not an array)
    are not modelled. *)
Definition py_size (n : pyval) : result nat :=
  match n with
  | VInt z => if (z <? 0)%Z then Raise ValueError else Ok (Z.to_nat z)
  | VNone | VBool _ | VList _ => Raise Unmodelled
  | _ => Raise TypeError
  end.

(** ** The random generator

    [numpy.random.Generator] is an external library: its draws are
    taken as an interface, together with the ranges its documentation
    promises.  A generator state is threaded through the draws. *)

Fixpoint count_pos (p : list Q) : nat :=
  match p with
  | [] => O
  | q :: p' => if Qlt_le_dec 0 q then S (count_pos p') else count_pos p'
  end.

Fixpoint Qsum (l : list Q) : Q :=
  match l with
  | [] => 0
  | q :: l' => q + Qsum l'
  end.

Record Generator : Type := {
  rng_state : Type;
  (** [np.random.default_rng(seed)] *)
  default_rng : Z -> rng_state;
  (** [rng.integers(lo, hi)] for [lo < hi] *)
  rng_integers : rng_state -> Z -> Z -> Z * rng_state;
  (** [rng.random()] *)
  rng_random : rng_state -> Q * rng_state;
  (** the positions [rng.choice(_, size=n, replace=False, p=p)] draws *)
  rng_choice : rng_state -> list Q -> nat -> list nat;
  rng_integers_range : forall g lo hi,
    (lo < hi)%Z -> (lo <= fst (rng_integers g lo hi) < hi)%Z;
  rng_random_range : forall g,
    0 <= fst (rng_random g) /\ fst (rng_random g) < 1;
  rng_choice_spec : forall g p n,
    (n <= count_pos p)%nat ->
    List.length (rng_choice g p n) = n /\
    NoDup (rng_choice g p n) /\
    Forall (fun i => (i < List.length p)%nat) (rng_choice g p n)
}.

(** ** The node's sampling code *)

Section Sampling.

(** The generator, and Python's [float(s)] on a weight suffix (it raises
    [ValueError] on text that is not a number). *)
Variable G : Generator.
Variable py_float : string -> result Q.

(** [rng.integers(lo, hi)]: numpy refuses an empty range. *)
Definition integers (g : rng_state G) (lo hi : Z) : result (Z * rng_state G) :=
  if (lo <? hi)%Z then Ok (rng_integers G g lo hi) else Raise ValueError.

(** [rng.choice(names, size=n, replace=False, p=p)]: numpy raises
    [ValueError] on an empty population with a non-zero size, on
    probabilities that are negative or do not sum to 1, on a sample
    larger than the population, and on fewer positive probabilities than
    the sample size. *)
Definition choice (g : rng_state G) (names : list string) (n : nat)
  (p : list Q) : result (list string) :=
  if (match names with [] => negb (Nat.eqb n 0) | _ => false end)
     || negb (Nat.eqb (List.length p) (List.length names))
     || existsb (fun q => if Qlt_le_dec q 0 then true else false) p
     || negb (Qeq_bool (Qsum p) 1)
     || (List.length names <? n)%nat
     || (count_pos p <? n)%nat
  then Raise ValueError
  else Ok (map (fun i => nth i names "") (rng_choice G g p n)).

(** One turn of the loop of [parse_tag_distribution]: the name and the
    raw weight of an entry.  A name that is not a string (a nested list
    or table without [':'] among its items) is not modelled. *)
Definition parse_entry (tag : pyval) : result (string * Q) :=
  has_colon <- py_in ":" tag ;;
  if has_colon : bool then
    match tag with
    | VStr s =>
        match PyStr.split ":" s with
        | [tag_name; weight] =>
            w <- py_float weight ;;
            Ok (tag_name, w)
        | _ => Raise ValueError
        end
    | _ => Raise AttributeError
    end
  else
    match tag with
    | VStr s => Ok (s, 1)
    | _ => Raise Unmodelled
    end.

(** What the loop of [parse_tag_distribution] makes of the entry [s]:
    without a colon the entry is the name and the weight is 1; otherwise
    [s.split(':')] has exactly the two pieces name and weight text. *)
Definition entry_parsed (s : string) (nw : string * Q) : Prop :=
  (PyStr.contains ":" s = false /\ nw = (s, 1)) \/
  (exists weight,
      PyStr.split ":" s = [fst nw; weight] /\
      s = fst nw ++ ":" ++ weight /\
      py_float weight = Ok (snd nw)).

Fixpoint parse_entries (tags : list pyval) : result (list string * list Q) :=
  match tags with
  | [] => Ok ([], [])
  | tag :: rest =>
      '(tag_name, w) <- parse_entry tag ;;
      '(tag_names, weights) <- parse_entries rest ;;
      Ok (tag_name :: tag_names, w :: weights)
  end.

(** [Node.parse_tag_distribution] *)
Definition parse_tag_distribution (tags : pyval)
  : result (list string * list Q) :=
  items <- py_iter tags ;;
  '(tag_names, weights) <- parse_entries items ;;
  let probabilities := map (fun w => w / Qsum weights) weights in
  Ok (tag_names, probabilities).

(** [seed = seed or self.seed]: [None] and [0] are both falsy. *)
Definition seed_or (seed : option Z) (self_seed : Z) : Z :=
  match seed with
  | Some s => if (s =? 0)%Z then self_seed else s
  | None => self_seed
  end.

(** Lines 102-106 of [select_tags]: a list-valued [n] is replaced by one
    integer drawn between its first two values, the second clamped to
    [len(tags)]. *)
Definition draw_repeat (rng : rng_state G) (tags n : pyval)
  : result (pyval * rng_state G) :=
  match n with
  | VList l =>
      min_n <- py_index l 0 ;;
      n1 <- py_index l 1 ;;
      len <- py_len tags ;;
      max_n <- py_min n1 len ;;
      lo <- py_int min_n ;;
      hi <- py_int max_n ;;
      '(k, rng') <- integers rng lo hi ;;
      Ok (VInt k, rng')
  | _ => Ok (n, rng)
  end.

(** Lines 111-118 of [select_tags]: the names the weighted draw picks. *)
Definition draw_names (rng : rng_state G) (tags n : pyval)
  : result (list string) :=
  '(tag_names, weights) <- parse_tag_distribution tags ;;
  size <- py_size n ;;
  choice rng tag_names size weights.

(** Lines 111-121 of [select_tags] *)
Definition draw_tags (rng : rng_state G) (tags n : pyval) : result string :=
  selected_tags <- draw_names rng tags n ;;
  Ok (stringify_tags selected_tags).

(** Lines 99-109 of [select_tags], from the [tags] left by the [list]
    indirection: [None] is the early [return ""]. *)
Definition fire (rng : rng_state G) (tags p n : pyval)
  : result (option (pyval * pyval * rng_state G)) :=
  has_tags <- py_in "tags" tags ;;
  tags <- (if has_tags : bool then
             match tags with
             | VDict d => Ok (PyDict.get d "tags" (VList []))
             | _ => Raise AttributeError
             end
           else Ok tags) ;;
  '(n, rng) <- draw_repeat rng tags n ;;
  let '(r, rng) := rng_random G rng in
  skipped <- py_gt r p ;;
  if skipped : bool then Ok None else Ok (Some (tags, n, rng)).

(** [Node.select_tags]; [self_seed] is [self.seed]. *)
Fixpoint select_tags (self_seed : Z) (tags : pyval) (p n : pyval)
  (seed : option Z) {struct tags} : result string :=
  let seed := seed_or seed self_seed in
  let rng := default_rng G seed in
  match tags with
  | VStr s => Ok s
  | VDict d =>
      let p := PyDict.get d "probability" p in
      let n := PyDict.get d "repeat" n in
      tags <- match
                PyDict.lookup_with
                  (fun v => select_tags self_seed v p n None) "list" d
              with
              | Some r =>
                  selected_from_list <- r ;;
                  PyDict.getitem d selected_from_list
              | None => Ok (VDict d)
              end ;;
      g <- fire rng tags p n ;;
      match g with
      | None => Ok ""
      | Some (tags, n, rng) => draw_tags rng tags n
      end
  | _ => draw_tags rng tags n
  end.

End Sampling.

(** ** The node *)

Section NodeClass.

(** What a component is to [Node]: a value that may carry a [seed]
    attribute and that [str] turns into a fragment. *)
Variable comp : Type.
Variable comp_has_seed : comp -> bool.
Variable comp_set_seed : Z -> comp -> comp.
Variable comp_str : comp -> result string.

Record node : Type := mkNode {
  seed : Z;
  data : list (string * pyval);
  components : list (string * comp);
  prompt : list comp
}.

(** [utils.get_nested_dict_value(self.data, value)] *)
Variable get_nested_dict_value : list (string * pyval) -> pyval -> result pyval.

(** [build_components], the hook a subclass overrides: it computes the
    components from the seed, the data and the components already
    there. *)
Variable build_components :
  Z -> list (string * pyval) -> list (string * comp)
  -> result (list (string * comp)).

(** [Node.__init__]; [loaded] is what [load_data(data_file)] returned. *)
Definition init (seed0 : Z) (loaded : list (string * pyval))
  (built : list (string * comp)) : node :=
  {| seed := seed0; data := loaded; components := built; prompt := [] |}.

Definition is_random (value : pyval) : bool :=
  match value with
  | VStr s => String.eqb s "random"
  | _ => false
  end.

(** The loop of [run_node] (lines 49-52).  [output] is the local variable
    of that name: unbound until a first non-["random"] input has been
    looked up.  The data reached so far is returned with the exception
    when the loop raises. *)
Fixpoint update_data (d : list (string * pyval)) (output : option pyval)
  (kwargs : list (string * pyval))
  : list (string * pyval) * option exn :=
  match kwargs with
  | [] => (d, None)
  | (arg, value) :: rest =>
      let looked_up :=
        if negb (is_random value)
        then get_nested_dict_value d value
        else match output with
             | Some o => Ok o
             | None => Raise UnboundLocalError
             end in
      match looked_up with
      | Ok o => update_data (PyDict.set d arg o) (Some o) rest
      | Raise e => (d, Some e)
      end
  end.

(** [Node.update_seed] *)
Definition update_seed (nd : node) (s : Z) : node :=
  {| seed := s;
     data := data nd;
     components :=
       map (fun kc => if comp_has_seed (snd kc)
                      then (fst kc, comp_set_seed s (snd kc))
                      else kc) (components nd);
     prompt := prompt nd |}.

(** [map(str, tags)], stopping at the first [str] that raises *)
Fixpoint str_all (tags : list comp) : result (list string) :=
  match tags with
  | [] => Ok []
  | c :: rest =>
      s <- comp_str c ;;
      ss <- str_all rest ;;
      Ok (s :: ss)
  end.

(** [Node.build_prompt] *)
Definition build_prompt (nd : node) : result node :=
  comps <- build_components (seed nd) (data nd) (components nd) ;;
  Ok {| seed := seed nd; data := data nd; components := comps;
        prompt := map snd comps |}.

(** [Node.get_prompt]: the string and the node it leaves. *)
Definition get_prompt (nd : node) : result string * node :=
  match build_prompt nd with
  | Raise e => (Raise e, nd)
  | Ok nd' =>
      (tags <- str_all (prompt nd') ;; Ok (stringify_tags tags), nd')
  end.

(** [Node.run_node]: the prompt (or the exception) and the node after
    the call. *)
Definition run_node (nd : node) (s : Z) (kwargs : list (string * pyval))
  : result string * node :=
  let '(d, err) := update_data (data nd) None kwargs in
  let nd := {| seed := seed nd; data := d; components := components nd;
               prompt := prompt nd |} in
  match err with
  | Some e => (Raise e, nd)
  | None => get_prompt (update_seed nd s)
  end.

End NodeClass.

Arguments seed {comp} _.
Arguments data {comp} _.
Arguments components {comp} _.
Arguments prompt {comp} _.
Arguments mkNode {comp} _ _ _ _.

(** ** The base class and an override lookup *)

(** [Node.build_components] itself: [pass]. *)
Definition Node_build_components {comp : Type} (_ : Z)
  (_ : list (string * pyval)) (comps : list (string * comp))
  : result (list (string * comp)) :=
  Ok comps.

(** Modelled from the spec: [utils.get_nested_dict_value], which is not
    among the sources.  The override value is a dot-separated key
    sequence followed from the component's configuration; a path that
    does not resolve is a lookup failure. *)
Fixpoint follow_path (v : pyval) (keys : list string) : result pyval :=
  match keys with
  | [] => Ok v
  | k :: rest =>
      match v with
      | VDict d =>
          match PyDict.lookup d k with
          | Some v' => follow_path v' rest
          | None => Raise LookupError
          end
      | _ => Raise LookupError
      end
  end.

Definition dotted_lookup (d : list (string * pyval)) (value : pyval)
  : result pyval :=
  match value with
  | VStr path => follow_path (VDict d) (PyStr.split "." path)
  | _ => Raise LookupError
  end.

(** The base [Node] with string components. *)
Definition Node_run_node :=
  run_node string (fun _ => false) (fun _ c => c) (fun c => Ok c)
    dotted_lookup Node_build_components.

(** ** The input list of a node *)

(** [Node.build_inputs_list]: the choices offered for an input, the text
    of each entry up to its first colon behind a leading ["random"].
    An entry that is not a string has no [split]. *)
Fixpoint entry_names (data : list pyval) : result (list string) :=
  match data with
  | [] => Ok []
  | VStr tag :: rest =>
      names <- entry_names rest ;;
      Ok (hd "" (PyStr.split ":" tag) :: names)
  | _ :: _ => Raise AttributeError
  end.

Definition build_inputs_list (data : pyval) : result (list string) :=
  items <- py_iter data ;;
  data <- entry_names items ;;
  let inputs_list := "random" :: data in
  Ok inputs_list.

(** ** Values and instances for the examples *)

(** The classes of values the resolver has no branch for, and the keys
    of a table as the parser iterates them. *)
Definition is_scalar (v : pyval) : bool :=
  match v with
  | VNone | VBool _ | VInt _ | VFloat _ => true
  | _ => false
  end.

Definition dict_keys (d : list (string * pyval)) : list pyval :=
  map (fun kv => VStr (fst kv)) d.

(** An example subclass: its [build_components] resolves the [color]
    entry of the data into its one component. *)
Definition Color_build_components (G : Generator)
  (py_float : string -> result Q) (s : Z) (d : list (string * pyval))
  (_ : list (string * string)) : result (list (string * string)) :=
  entry <- PyDict.getitem d "color" ;;
  c <- select_tags G py_float s entry (VInt 1) (VInt 1) None ;;
  Ok [("color", c)].

Definition Color_run_node (G : Generator) (py_float : string -> result Q) :=
  run_node string (fun _ => false) (fun _ c => c) (fun c => Ok c)
    dotted_lookup (Color_build_components G py_float).


Definition xyz_node : list (string * pyval) :=
  [("tags", VList (map VStr ["x"; "y"; "z"]));
   ("repeat", VList [VInt 1; VInt 5])].

Definition nested_data : list (string * pyval) :=
  [("k", VDict [("j", VStr "v")])].

Definition chain_data : list (string * pyval) :=
  [("color", VStr "A"); ("b", VStr "B"); ("c", VStr "C")].

Definition chain_inputs : list (string * pyval) :=
  [("color", VStr "b"); ("b", VStr "c")].

(** The draws of a small generator: a counter as state, the integer
    draw and the uniform draw read off the counter, and the weighted
    draw taking the first positions of positive weight. *)
Fixpoint positive_positions (i : nat) (p : list Q) : list nat :=
  match p with
  | [] => []
  | q :: p' =>
      if Qlt_le_dec 0 q
      then i :: positive_positions (S i) p'
      else positive_positions (S i) p'
  end.

Definition counter_choice (_ : Z) (p : list Q) (n : nat) : list nat :=
  firstn n (positive_positions 0 p).

Definition counter_integers (g lo hi : Z) : Z * Z :=
  ((lo + g mod (hi - lo))%Z, (g + 1)%Z).

Definition counter_random (g : Z) : Q * Z :=
  (Qmake (g mod 2) 2, (g + 1)%Z).

(** [float] on an unsigned decimal integer; anything else is refused. *)
Definition digit_value (c : ascii) : option Z :=
  let k := nat_of_ascii c in
  if ((48 <=? k) && (k <=? 57))%nat then Some (Z.of_nat (k - 48)) else None.

Fixpoint digits_value (acc : Z) (s : string) : option Z :=
  match s with
  | EmptyString => Some acc
  | String c s' =>
      match digit_value c with
      | Some v => digits_value (10 * acc + v) s'
      | None => None
      end
  end.

Definition float_of_digits (s : string) : result Q :=
  match s with
  | EmptyString => Raise ValueError
  | _ =>
      match digits_value 0 s with
      | Some z => Ok (inject_Z z)
      | None => Raise ValueError
      end
  end.

(** ** Facts about the string primitives *)

Section PyStrFacts.

Import PyStr.

Lemma append_nil_r (s : string) : s ++ "" = s.
Proof. induction s as [|c s IH]; simpl; [reflexivity | now rewrite IH]. Qed.

Lemma append_assoc (a b c : string) : (a ++ b) ++ c = a ++ (b ++ c).
Proof. induction a as [|x a IH]; simpl; [reflexivity | now rewrite IH]. Qed.

Lemma starts_with_drop (p s : string) :
  starts_with p s = true -> s = p ++ drop (String.length p) s.
Proof.
  revert s; induction p as [|a p IH]; intros s H; simpl in *.
  - reflexivity.
  - destruct s as [|b s]; [discriminate|].
    apply andb_true_iff in H as [Hab Hps].
    apply Ascii.eqb_eq in Hab; subst b.
    now rewrite <- (IH s Hps).
Qed.

Lemma drop_nil (k : nat) : drop k "" = "".
Proof. now destruct k. Qed.

Lemma split_from_nonempty (sep : string) (s : string) :
  forall skip cur, split_from sep skip cur s <> [].
Proof.
  induction s as [|c s IH]; intros skip cur; simpl; [discriminate|].
  destruct skip; [|apply IH].
  destruct (starts_with sep (String c s)); [discriminate | apply IH].
Qed.

Lemma join_cons (sep x : string) (l : list string) :
  l <> [] -> join sep (x :: l) = x ++ sep ++ join sep l.
Proof. destruct l; [congruence | reflexivity]. Qed.

(** Joining the pieces of a split gives back what the split read. *)
Lemma join_split_from (sep : string) (s : string) :
  sep <> "" ->
  forall skip cur,
    join sep (split_from sep skip cur s) = cur ++ drop skip s.
Proof.
  intros Hsep; induction s as [|c s IH]; intros skip cur.
  - simpl. now rewrite drop_nil, append_nil_r.
  - destruct skip as [|k].
    + cbn [split_from drop].
      destruct (starts_with sep (String c s)) eqn:E.
      * rewrite join_cons by apply split_from_nonempty.
        rewrite IH. simpl.
        apply starts_with_drop in E.
        destruct sep as [|a sep]; [congruence|].
        simpl in E. injection E as -> E.
        simpl. rewrite Nat.sub_0_r. now rewrite <- E.
      * rewrite IH. simpl. now rewrite append_assoc.
    + cbn [split_from drop]. apply IH.
Qed.

Lemma join_split (sep s : string) :
  sep <> "" -> join sep (split sep s) = s.
Proof. intros H. unfold split. now rewrite join_split_from. Qed.

Lemma replace_from_absent (old new : string) (s : string) :
  contains old s = false -> replace_from old new 0 s = s.
Proof.
  induction s as [|c s IH]; intros H; [reflexivity|].
  cbn [contains] in H. apply orb_false_iff in H as [H1 H2].
  cbn [replace_from]. rewrite H1. now rewrite IH.
Qed.


End PyStrFacts.

(** ** Serializer: re-joining the split of an output *)

(** Splitting any string on [", "] and serializing the pieces runs the
    [", ,"] replacement once more on that string. *)
Lemma stringify_split (s : string) :
  stringify_tags (PyStr.split ", " s) = PyStr.replace ", ," "," s.
Proof. unfold stringify_tags. now rewrite join_split by discriminate. Qed.

(** C9 (as stated, refuted): with two adjacent empty fragments the single
    replacement pass leaves a [", ,"] behind, and serializing the split
    output again changes the string. *)
Lemma C9_stringify_not_idempotent :
  stringify_tags ["a"; ""; ""; "b"] = "a, , b" /\
  stringify_tags (PyStr.split ", " (stringify_tags ["a"; ""; ""; "b"])) = "a, b" /\
  ~ (forall tags : list string,
        stringify_tags (PyStr.split ", " (stringify_tags tags))
        = stringify_tags tags).
Proof.
  split; [reflexivity|]. split; [reflexivity|].
  intros H. specialize (H ["a"; ""; ""; "b"]). vm_compute in H. discriminate.
Qed.


(** ** The counter generator meets the interface *)

Lemma positive_positions_length (p : list Q) :
  forall i, List.length (positive_positions i p) = count_pos p.
Proof.
  induction p as [|q p IH]; intros i; simpl; [reflexivity|].
  destruct (Qlt_le_dec 0 q); simpl; now rewrite IH.
Qed.

Lemma positive_positions_bounds (p : list Q) :
  forall i, Forall (fun j => (i <= j < i + List.length p)%nat)
                   (positive_positions i p).
Proof.
  induction p as [|q p IH]; intros i; simpl; [constructor|].
  assert (H : Forall (fun j => (i <= j < i + S (List.length p))%nat)
                     (positive_positions (S i) p)).
  { eapply Forall_impl; [|apply IH]. simpl; intros; lia. }
  destruct (Qlt_le_dec 0 q); [constructor; [lia | exact H] | exact H].
Qed.

Lemma positive_positions_NoDup (p : list Q) :
  forall i, NoDup (positive_positions i p).
Proof.
  induction p as [|q p IH]; intros i; simpl; [constructor|].
  destruct (Qlt_le_dec 0 q); [|apply IH].
  constructor; [|apply IH].
  intros Hin.
  pose proof (positive_positions_bounds p (S i)) as HB.
  rewrite Forall_forall in HB. specialize (HB _ Hin). lia.
Qed.

Lemma firstn_NoDup {A : Type} (l : list A) (n : nat) :
  NoDup l -> NoDup (firstn n l).
Proof.
  intros H. rewrite <- (firstn_skipn n l) in H.
  now apply NoDup_app_remove_r in H.
Qed.

Lemma firstn_Forall {A : Type} (P : A -> Prop) (l : list A) (n : nat) :
  Forall P l -> Forall P (firstn n l).
Proof.
  intros H. rewrite <- (firstn_skipn n l) in H.
  now apply Forall_app in H.
Qed.


Lemma counter_choice_spec (g : Z) (p : list Q) (n : nat) :
  (n <= count_pos p)%nat ->
  List.length (counter_choice g p n) = n /\
  NoDup (counter_choice g p n) /\
  Forall (fun i => (i < List.length p)%nat) (counter_choice g p n).
Proof.
  intros Hn. unfold counter_choice. repeat split.
  - rewrite length_firstn, positive_positions_length. lia.
  - apply firstn_NoDup, positive_positions_NoDup.
  - apply firstn_Forall.
    eapply Forall_impl; [|apply positive_positions_bounds].
    simpl; intros; lia.
Qed.


Lemma counter_integers_range (g lo hi : Z) :
  (lo < hi)%Z -> (lo <= fst (counter_integers g lo hi) < hi)%Z.
Proof.
  intros H. simpl.
  pose proof (Z.mod_pos_bound g (hi - lo) ltac:(lia)). lia.
Qed.


Lemma counter_random_range (g : Z) :
  0 <= fst (counter_random g) /\ fst (counter_random g) < 1.
Proof.
  pose proof (Z.mod_pos_bound g 2 ltac:(lia)).
  unfold Qle, Qlt; simpl. lia.
Qed.

Definition counter_rng : Generator :=
  {| rng_state := Z;
     default_rng := fun s => s;
     rng_integers := counter_integers;
     rng_random := counter_random;
     rng_choice := counter_choice;
     rng_integers_range := counter_integers_range;
     rng_random_range := counter_random_range;
     rng_choice_spec := counter_choice_spec |}.


(** ** Facts about the sampling code *)

Lemma lookup_with_lookup {A : Type} (f : pyval -> A) (k : string)
  (d : list (string * pyval)) :
  PyDict.lookup_with f k d = option_map f (PyDict.lookup d k).
Proof.
  induction d as [|[k' v] d IH]; simpl; [reflexivity|].
  destruct (String.eqb k' k); [reflexivity | exact IH].
Qed.

Section SamplingFacts.

Variable G : Generator.
Variable py_float : string -> result Q.

Abbreviation select_tags' := (select_tags G py_float).
Abbreviation draw_tags' := (draw_tags G py_float).
Abbreviation draw_names' := (draw_names G py_float).
Abbreviation parse_tag_distribution' := (parse_tag_distribution py_float).
Abbreviation parse_entries' := (parse_entries py_float).
Abbreviation parse_entry' := (parse_entry py_float).

(** The equation of [select_tags'] on a table, with the [list] key found
    by a plain lookup. *)
Lemma select_tags_dict (self_seed : Z) (d : list (string * pyval))
  (p n : pyval) (s : option Z) :
  select_tags' self_seed (VDict d) p n s =
  (let rng := default_rng G (seed_or s self_seed) in
   let p' := PyDict.get d "probability" p in
   let n' := PyDict.get d "repeat" n in
   tags <- match PyDict.lookup d "list" with
           | Some v =>
               selected_from_list <- select_tags' self_seed v p' n' None ;;
               PyDict.getitem d selected_from_list
           | None => Ok (VDict d)
           end ;;
   g <- fire G rng tags p' n' ;;
   match g with
   | None => Ok ""
   | Some (tags, n, rng) => draw_tags' rng tags n
   end).
Proof.
  cbn [select_tags]. rewrite lookup_with_lookup.
  destruct (PyDict.lookup d "list"); reflexivity.
Qed.

Lemma select_tags_seq (self_seed : Z) (l : list pyval) (p n : pyval)
  (s : option Z) :
  select_tags' self_seed (VList l) p n s =
  draw_tags' (default_rng G (seed_or s self_seed)) (VList l) n.
Proof. reflexivity. Qed.

Lemma parse_entries_length (tags : list pyval) :
  forall names ws,
    parse_entries' tags = Ok (names, ws) ->
    List.length names = List.length tags /\
    List.length ws = List.length tags.
Proof.
  induction tags as [|t tags IH]; intros names ws H; simpl in H.
  - injection H as <- <-. now split.
  - destruct (parse_entry' t) as [[nm w]|e]; simpl in H; [|discriminate].
    destruct (parse_entries' tags) as [[nms wts]|e]; simpl in H;
      [|discriminate].
    injection H as <- <-. destruct (IH _ _ eq_refl) as [H1 H2].
    simpl. now rewrite H1, H2.
Qed.

Lemma parse_tag_distribution_length (l : list pyval) names probs :
  parse_tag_distribution' (VList l) = Ok (names, probs) ->
  List.length names = List.length l /\ List.length probs = List.length l.
Proof.
  unfold parse_tag_distribution; simpl.
  destruct (parse_entries' l) as [[nms wts]|e] eqn:E; simpl; [|discriminate].
  intros H; injection H as <- <-.
  destruct (parse_entries_length _ _ _ E) as [H1 H2].
  now rewrite length_map.
Qed.

(** C10: an explicit per-call seed of 0 cannot be told from no seed at
    all: [seed or self.seed] takes [self.seed] in both cases, so both
    calls build the same generator and return the same result. *)
Theorem C10_seed_zero_is_no_seed (self_seed : Z) (tags p n : pyval) :
  select_tags' self_seed tags p n (Some 0%Z)
  = select_tags' self_seed tags p n None /\
  seed_or (Some 0%Z) self_seed = self_seed /\
  seed_or None self_seed = self_seed.
Proof.
  split; [|split; reflexivity].
  destruct tags; reflexivity.
Qed.

(** C4 (the code at the failing inputs): with a scalar repeat count
    above the size of a list of tags nothing is clamped; when the list
    parses, the draw raises [ValueError], and otherwise the parser's
    exception comes out.  No result is returned. *)
Theorem C4_scalar_repeat_over_pool_raises (self_seed : Z) (l : list string)
  (p : pyval) (n : Z) (s : option Z) :
  (Z.of_nat (List.length l) < n)%Z ->
  match parse_tag_distribution' (VList (map VStr l)) with
  | Ok _ =>
      select_tags' self_seed (VList (map VStr l)) p (VInt n) s
      = Raise ValueError
  | Raise e =>
      select_tags' self_seed (VList (map VStr l)) p (VInt n) s = Raise e
  end.
Proof.
  intros Hn. rewrite select_tags_seq.
  unfold draw_tags, draw_names.
  destruct (parse_tag_distribution' (VList (map VStr l)))
    as [[names probs]|e] eqn:E; [|reflexivity].
  destruct (parse_tag_distribution_length _ _ _ E) as [H1 H2].
  rewrite length_map in H1.
  cbn [bind py_size].
  destruct (Z.ltb_spec n 0); [lia|].
  cbn [bind]. unfold choice.
  assert (Hlt : (List.length names <? Z.to_nat n)%nat = true)
    by (apply Nat.ltb_lt; lia).
  rewrite Hlt. rewrite !orb_true_r. cbn [orb]. reflexivity.
Qed.

End SamplingFacts.

Lemma C4_scalar_repeat_over_pool_raises_witness :
  (Z.of_nat (List.length ["a"]) < 2)%Z /\
  select_tags counter_rng float_of_digits 7 (VList (map VStr ["a"])) (VInt 1)
    (VInt 2) None = Raise ValueError.
Proof.
  split; [reflexivity|].
  apply (C4_scalar_repeat_over_pool_raises counter_rng float_of_digits 7
           ["a"] (VInt 1) 2 None).
  reflexivity.
Defined.

(** ** Normalised weights and the weighted draw *)

Lemma Qsum_scaled (t : Q) (ws : list Q) :
  Qsum (map (fun w => w / t) ws) == Qsum ws / t.
Proof.
  induction ws as [|w ws IH]; simpl.
  - unfold Qdiv. ring.
  - rewrite IH. unfold Qdiv. ring.
Qed.

Lemma Qsum_normalised (ws : list Q) :
  ~ Qsum ws == 0 -> Qsum (map (fun w => w / Qsum ws) ws) == 1.
Proof.
  intros H. rewrite Qsum_scaled. unfold Qdiv. now apply Qmult_inv_r.
Qed.

Lemma Qsum_positive (ws : list Q) :
  ws <> [] -> Forall (fun w => 0 < w) ws -> 0 < Qsum ws.
Proof.
  intros Hne H. induction H as [|w ws Hw Hws IH]; [congruence|].
  simpl. destruct ws as [|w' ws'].
  - simpl. now rewrite Qplus_0_r.
  - assert (0 < Qsum (w' :: ws')) by (apply IH; discriminate).
    rewrite <- (Qplus_0_r 0). apply Qplus_lt_le_compat; [exact Hw|].
    now apply Qlt_le_weak.
Qed.

Lemma normalised_positive (ws : list Q) :
  ws <> [] -> Forall (fun w => 0 < w) ws ->
  Forall (fun w => 0 < w) (map (fun w => w / Qsum ws) ws).
Proof.
  intros Hne H. pose proof (Qsum_positive ws Hne H) as Ht.
  apply Forall_map. eapply Forall_impl; [|exact H].
  intros w Hw. simpl. unfold Qdiv.
  apply Qmult_lt_0_compat; [exact Hw | now apply Qinv_lt_0_compat].
Qed.

Lemma count_pos_all (ps : list Q) :
  Forall (fun w => 0 < w) ps -> count_pos ps = List.length ps.
Proof.
  induction 1 as [|w ps Hw _ IH]; simpl; [reflexivity|].
  destruct (Qlt_le_dec 0 w) as [_|Hle]; [now rewrite IH|].
  exfalso. exact (Qlt_not_le _ _ Hw Hle).
Qed.

Lemma no_negative (ps : list Q) :
  Forall (fun w => 0 < w) ps ->
  existsb (fun q => if Qlt_le_dec q 0 then true else false) ps = false.
Proof.
  induction 1 as [|w ps Hw _ IH]; simpl; [reflexivity|].
  rewrite IH. destruct (Qlt_le_dec w 0) as [Hlt|_]; [|reflexivity].
  exfalso. exact (Qlt_irrefl _ (Qlt_trans _ _ _ Hw Hlt)).
Qed.

Section ChoiceFacts.

Variable G : Generator.

(** With positive probabilities summing to 1 and a sample no larger than
    the population, the draw succeeds and gives [n] names of the
    population, at distinct positions. *)
Lemma choice_ok (rng : rng_state G) (names : list string) (n : nat)
  (ps : list Q) :
  List.length ps = List.length names ->
  Forall (fun w => 0 < w) ps ->
  Qsum ps == 1 ->
  (n <= List.length names)%nat ->
  exists idx,
    choice G rng names n ps = Ok (map (fun i => nth i names "") idx) /\
    List.length idx = n /\
    NoDup idx /\
    Forall (fun i => (i < List.length names)%nat) idx.
Proof.
  intros Hlen Hpos Hsum Hn.
  exists (rng_choice G rng ps n).
  assert (Hc : count_pos ps = List.length names)
    by (now rewrite count_pos_all).
  destruct (rng_choice_spec G rng ps n ltac:(lia)) as (L & ND & B).
  rewrite Hlen in B. repeat split; try assumption.
  unfold choice.
  assert (Hne : names <> []).
  { intros ->. destruct ps; [|discriminate]. simpl in Hsum.
    discriminate Hsum. }
  destruct names as [|x names]; [congruence|].
  rewrite Hlen, Nat.eqb_refl, (no_negative _ Hpos).
  apply Qeq_bool_iff in Hsum. rewrite Hsum. rewrite Hc.
  assert (E : (List.length (x :: names) <? n)%nat = false)
    by (apply Nat.ltb_ge; exact Hn).
  rewrite E. reflexivity.
Qed.


Lemma drawn_incl (names : list string) (idx : list nat) :
  Forall (fun i => (i < List.length names)%nat) idx ->
  incl (map (fun i => nth i names "") idx) names.
Proof.
  intros H x Hx. apply in_map_iff in Hx as (i & <- & Hi).
  rewrite Forall_forall in H. apply nth_In. now apply H.
Qed.

Lemma drawn_NoDup (names : list string) (idx : list nat) :
  NoDup names -> NoDup idx ->
  Forall (fun i => (i < List.length names)%nat) idx ->
  NoDup (map (fun i => nth i names "") idx).
Proof.
  intros Hn Hi HB. induction Hi as [|i idx Hnotin Hi IH]; simpl;
    [constructor|].
  inversion HB as [|? ? Hib HBt]; subst.
  constructor; [|now apply IH].
  intros Hin. apply in_map_iff in Hin as (j & Hj & Hjin).
  rewrite Forall_forall in HBt. specialize (HBt _ Hjin).
  rewrite NoDup_nth in Hn. specialize (Hn j i HBt Hib Hj). now subst.
Qed.

End ChoiceFacts.

(** ** The weighted-set parser *)

Section ParserFacts.

Variable py_float : string -> result Q.


Lemma parse_entry_spec (s : string) (nw : string * Q) :
  parse_entry py_float (VStr s) = Ok nw -> entry_parsed py_float s nw.
Proof.
  unfold parse_entry, entry_parsed; cbn [py_in bind].
  destruct (PyStr.contains ":" s) eqn:E.
  - destruct (PyStr.split ":" s) as [|a [|b [|c rest]]] eqn:S;
      try discriminate.
    intros H. right. exists b.
    destruct (py_float b) as [w|e] eqn:F; [|discriminate].
    injection H as <-. cbn [fst snd]. repeat split; try assumption.
    rewrite <- (join_split ":" s) at 1 by discriminate.
    now rewrite S.
  - intros H. injection H as <-. now left.
Qed.

Lemma parse_entries_spec (l : list string) :
  forall names ws,
    parse_entries py_float (map VStr l) = Ok (names, ws) ->
    Forall2 (entry_parsed py_float) l (combine names ws).
Proof.
  induction l as [|s l IH]; intros names ws H; simpl in H.
  - injection H as <- <-. constructor.
  - destruct (parse_entry py_float (VStr s)) as [[nm w]|e] eqn:E;
      cbn [bind] in H; [|discriminate].
    destruct (parse_entries py_float (map VStr l)) as [[nms wts]|e] eqn:E';
      cbn [bind] in H; [|discriminate].
    injection H as <- <-. simpl. constructor.
    + now apply parse_entry_spec.
    + now apply IH.
Qed.

Lemma parse_entries_plain (l : list string) :
  Forall (fun s => PyStr.contains ":" s = false) l ->
  parse_entries py_float (map VStr l) = Ok (l, map (fun _ => 1) l).
Proof.
  induction 1 as [|s l Hs _ IH]; simpl; [reflexivity|].
  unfold parse_entry; cbn [py_in bind]. rewrite Hs. cbn [bind].
  now rewrite IH.
Qed.

(** C7 (amended): on a sequence of strings that it accepts,
    [parse_tag_distribution] returns as many names and weights as there
    are entries; an entry without a colon is its own name with weight 1,
    and every other entry splits on [':'] into exactly two pieces, the
    name and the text [float] reads the weight from (so no accepted
    entry holds two colons).  The weights returned are the raw ones
    divided by their sum, and in exact arithmetic they add up to 1
    unless that sum is zero. *)
Theorem C7_parse_splits_single_colon (l : list string)
  (names : list string) (probs : list Q) :
  parse_tag_distribution py_float (VList (map VStr l)) = Ok (names, probs) ->
  List.length names = List.length l /\
  List.length probs = List.length l /\
  exists weights,
    List.length weights = List.length l /\
    Forall2 (entry_parsed py_float) l (combine names weights) /\
    probs = map (fun w => w / Qsum weights) weights /\
    (~ Qsum weights == 0 -> Qsum probs == 1).
Proof.
  intros H.
  destruct (parse_tag_distribution_length py_float _ _ _ H) as [H1 H2].
  rewrite length_map in H1, H2. repeat split; try assumption.
  unfold parse_tag_distribution in H; cbn [py_iter bind] in H.
  destruct (parse_entries py_float (map VStr l)) as [[nms wts]|e] eqn:E;
    cbn [bind] in H; [|discriminate].
  injection H as <- <-.
  exists wts. repeat split.
  - destruct (parse_entries_length py_float _ _ _ E) as [_ L].
    now rewrite length_map in L.
  - now apply parse_entries_spec.
  - apply Qsum_normalised.
Qed.

End ParserFacts.

(** C7 (as stated, refuted): an entry with two colons is not split at
    the first one; unpacking its three pieces raises [ValueError]. *)
Lemma C7_two_colons_raise :
  PyStr.split ":" "a:1:2" = ["a"; "1"; "2"] /\
  parse_tag_distribution float_of_digits (VList [VStr "a:1:2"])
  = Raise ValueError /\
  ~ (exists probs,
        parse_tag_distribution float_of_digits (VList [VStr "a:1:2"])
        = Ok (["a"], probs)).
Proof.
  split; [reflexivity|]. split; [reflexivity|].
  intros [probs H]. vm_compute in H. discriminate.
Qed.

Lemma C7_parse_splits_single_colon_witness :
  parse_tag_distribution float_of_digits
    (VList (map VStr ["a:3"; "b"])) = Ok (["a"; "b"], [3 # 4; 1 # 4]) /\
  List.length ["a"; "b"] = List.length ["a:3"; "b"].
Proof.
  split; [reflexivity|].
  apply (C7_parse_splits_single_colon float_of_digits ["a:3"; "b"]
           ["a"; "b"] [3 # 4; 1 # 4]).
  reflexivity.
Defined.

(** ** The repeat range and the draw over plain tags *)

Section DrawFacts.

Variable G : Generator.
Variable py_float : string -> result Q.

(** A repeat range [[lo, hi]] over a pool of [len] tags: the count is
    drawn from [lo] up to, and not including, [min hi len]. *)
Lemma draw_repeat_range (rng : rng_state G) (tags : list pyval) (lo hi : Z) :
  (lo < Z.min hi (Z.of_nat (List.length tags)))%Z ->
  exists k rng',
    draw_repeat G rng (VList tags) (VList [VInt lo; VInt hi])
    = Ok (VInt k, rng') /\
    (lo <= k < Z.min hi (Z.of_nat (List.length tags)))%Z.
Proof.
  intros H. unfold draw_repeat, py_min, integers.
  cbn [py_index nth_error bind py_len as_number].
  set (P := Z.of_nat (List.length tags)) in *.
  destruct (Qlt_le_dec (inject_Z P) (inject_Z hi)) as [Hlt|Hle].
  - rewrite <- Zlt_Qlt in Hlt. cbn [bind py_int].
    destruct (Z.ltb_spec lo P); [|lia].
    pose proof (rng_integers_range G rng lo P ltac:(lia)) as R.
    destruct (rng_integers G rng lo P) as [k rng']. cbn [bind].
    exists k, rng'. split; [reflexivity|]. simpl in R. lia.
  - rewrite <- Zle_Qle in Hle. cbn [bind py_int].
    destruct (Z.ltb_spec lo hi); [|lia].
    pose proof (rng_integers_range G rng lo hi ltac:(lia)) as R.
    destruct (rng_integers G rng lo hi) as [k rng']. cbn [bind].
    exists k, rng'. split; [reflexivity|]. simpl in R. lia.
Qed.

Lemma ones_positive {A : Type} (l : list A) :
  Forall (fun w => 0 < w) (map (fun _ => 1) l).
Proof. induction l; simpl; constructor; [reflexivity | assumption]. Qed.

(** Over a non-empty list of plain tags (no colon) every count up to the
    size of the list is served: the draw returns that many tags of the
    list, taken at distinct positions. *)
Lemma draw_names_plain (rng : rng_state G) (l : list string) (k : Z) :
  Forall (fun s => PyStr.contains ":" s = false) l ->
  l <> [] ->
  (0 <= k <= Z.of_nat (List.length l))%Z ->
  exists idx,
    draw_names G py_float rng (VList (map VStr l)) (VInt k)
    = Ok (map (fun i => nth i l "") idx) /\
    List.length idx = Z.to_nat k /\
    NoDup idx /\
    Forall (fun i => (i < List.length l)%nat) idx.
Proof.
  intros Hplain Hne Hk.
  unfold draw_names, parse_tag_distribution. cbn [py_iter bind].
  rewrite (parse_entries_plain py_float l Hplain). cbn [bind py_size].
  destruct (Z.ltb_spec k 0); [lia|]. cbn [bind].
  set (ones := map (fun _ : string => 1) l).
  assert (Hones : ones <> []) by (destruct l; [congruence | discriminate]).
  apply choice_ok.
  - unfold ones. now rewrite !length_map.
  - apply normalised_positive; [exact Hones | apply ones_positive].
  - apply Qsum_normalised. intros E.
    pose proof (Qsum_positive ones Hones (ones_positive l)) as Hp.
    rewrite E in Hp. exact (Qlt_irrefl _ Hp).
  - lia.
Qed.

End DrawFacts.

(** ** The resolver on tables *)




Section ResolverFacts.

Variable G : Generator.
Variable py_float : string -> result Q.

Lemma fire_tags (rng : rng_state G) (d : list (string * pyval))
  (tg p n : pyval) :
  PyDict.lookup d "tags" = Some tg ->
  fire G rng (VDict d) p n =
  ('(n1, rng1) <- draw_repeat G rng tg n ;;
   skipped <- py_gt (fst (rng_random G rng1)) p ;;
   if skipped : bool then Ok None
   else Ok (Some (tg, n1, snd (rng_random G rng1)))).
Proof.
  intros H. unfold fire. cbn [py_in bind].
  unfold PyDict.mem, PyDict.get. rewrite H. cbn [bind].
  destruct (draw_repeat G rng tg n) as [[n1 rng1]|e]; [|reflexivity].
  cbn [bind]. now destruct (rng_random G rng1).
Qed.

Lemma fire_no_tags (rng : rng_state G) (d : list (string * pyval))
  (p n : pyval) :
  PyDict.lookup d "tags" = None ->
  fire G rng (VDict d) p n =
  ('(n1, rng1) <- draw_repeat G rng (VDict d) n ;;
   skipped <- py_gt (fst (rng_random G rng1)) p ;;
   if skipped : bool then Ok None
   else Ok (Some (VDict d, n1, snd (rng_random G rng1)))).
Proof.
  intros H. unfold fire. cbn [py_in bind].
  unfold PyDict.mem. rewrite H. cbn [bind].
  destruct (draw_repeat G rng (VDict d) n) as [[n1 rng1]|e]; [|reflexivity].
  cbn [bind]. now destruct (rng_random G rng1).
Qed.


(** C6 (amended): [select_tags] has no shape check of its own.  A value
    that is [None], a boolean or a number reaches the parser, whose
    iteration raises [TypeError]; a table with neither a [tags] nor a
    [list] key is not refused: after the probability test its keys are
    sampled as a tag list. *)
Theorem C6_unsupported_shapes (self_seed : Z) (v p n : pyval)
  (s : option Z) :
  is_scalar v = true ->
  select_tags G py_float self_seed v p n s = Raise TypeError /\
  (forall d : list (string * pyval),
      PyDict.lookup d "list" = None ->
      PyDict.lookup d "tags" = None ->
      select_tags G py_float self_seed (VDict d) p n s =
      ('(n1, rng1) <- draw_repeat G (default_rng G (seed_or s self_seed))
                        (VDict d) (PyDict.get d "repeat" n) ;;
       skipped <- py_gt (fst (rng_random G rng1))
                  (PyDict.get d "probability" p) ;;
       if skipped : bool then Ok ""
       else draw_tags G py_float (snd (rng_random G rng1))
              (VList (dict_keys d)) n1)).
Proof.
  intros Hv. split.
  - destruct v; try discriminate; reflexivity.
  - intros d Hlist Htags.
    rewrite select_tags_dict. cbv zeta. rewrite Hlist. cbn [bind].
    rewrite (fire_no_tags _ _ _ _ Htags).
    destruct (draw_repeat G _ (VDict d) _) as [[n1 rng1]|e]; [|reflexivity].
    cbn [bind].
    destruct (py_gt _ _) as [[|]|e]; reflexivity.
Qed.

End ResolverFacts.


(** C5 (as stated, refuted): with ["x", "y", "z"] and repeat [[1, 5]]
    no generator and no seed make the count 3. *)
Lemma C5_three_not_attainable :
  ~ (exists (G : Generator) (rng rng' : rng_state G),
        draw_repeat G rng (VList (map VStr ["x"; "y"; "z"]))
          (VList [VInt 1; VInt 5]) = Ok (VInt 3, rng')).
Proof.
  intros (G & rng & rng' & H).
  destruct (draw_repeat_range G rng (map VStr ["x"; "y"; "z"]) 1 5)
    as (k & r & E & B); [simpl; lia|].
  rewrite E in H. injection H as -> _. simpl in B. lia.
Qed.

(** C6 (as stated, refuted): a table with neither [tags] nor [list] is
    given a result, one of its keys. *)
Lemma C6_table_without_tags_resolves :
  PyDict.lookup [("probability", VInt 1)] "tags" = None /\
  PyDict.lookup [("probability", VInt 1)] "list" = None /\
  select_tags counter_rng float_of_digits 1
    (VDict [("probability", VInt 1)]) (VInt 1) (VInt 1) None
  = Ok "probability".
Proof. repeat split. Qed.

Lemma C6_unsupported_shapes_witness :
  select_tags counter_rng float_of_digits 1 (VInt 5) (VInt 1) (VInt 1) None
  = Raise TypeError.
Proof.
  apply (C6_unsupported_shapes counter_rng float_of_digits 1 (VInt 5)
           (VInt 1) (VInt 1) None).
  reflexivity.
Defined.

(** ** The entry point *)

Section NodeFacts.

Variable comp : Type.
Variable comp_has_seed : comp -> bool.
Variable comp_set_seed : Z -> comp -> comp.
Variable comp_str : comp -> result string.
Variable get_nested_dict_value : list (string * pyval) -> pyval -> result pyval.
Variable build_components :
  Z -> list (string * pyval) -> list (string * comp)
  -> result (list (string * comp)).

Abbreviation run_node' :=
  (run_node comp comp_has_seed comp_set_seed comp_str
     get_nested_dict_value build_components).
Abbreviation update_data' := (update_data get_nested_dict_value).
Abbreviation update_seed' := (update_seed comp comp_has_seed comp_set_seed).

(** A run reads the node's data and components only: the stored seed is
    overwritten by the seed passed in, and the stored prompt by the one
    built. *)
Lemma run_node_reads_config (nd1 nd2 : node comp) (s : Z)
  (kwargs : list (string * pyval)) :
  data nd1 = data nd2 ->
  components nd1 = components nd2 ->
  fst (run_node' nd1 s kwargs) = fst (run_node' nd2 s kwargs) /\
  data (snd (run_node' nd1 s kwargs)) = data (snd (run_node' nd2 s kwargs)) /\
  components (snd (run_node' nd1 s kwargs))
  = components (snd (run_node' nd2 s kwargs)).
Proof.
  destruct nd1 as [s1 d1 c1 p1], nd2 as [s2 d2 c2 p2]; simpl.
  intros <- <-. unfold run_node; simpl.
  destruct (update_data' d1 None kwargs) as [d [e|]]; simpl.
  - repeat split.
  - unfold get_prompt, build_prompt, update_seed; simpl.
    destruct (build_components s d _) as [comps|e]; simpl; repeat split.
Qed.

(** The data a run leaves is the data it started from with the inputs
    written into it; nothing reloads it. *)
Lemma run_node_data (nd : node comp) (s : Z) (kwargs : list (string * pyval)) :
  data (snd (run_node' nd s kwargs))
  = fst (update_data' (data nd) None kwargs).
Proof.
  unfold run_node.
  destruct (update_data' (data nd) None kwargs) as [d [e|]]; simpl;
    [reflexivity|].
  unfold get_prompt, build_prompt, update_seed; simpl.
  destruct (build_components s d _); reflexivity.
Qed.

(** A run that returns has rebuilt the components with the hook. *)
Lemma run_node_components (nd : node comp) (s : Z)
  (kwargs : list (string * pyval)) :
  is_ok (fst (run_node' nd s kwargs)) = true ->
  build_components s (data (snd (run_node' nd s kwargs)))
    (components (update_seed' nd s))
  = Ok (components (snd (run_node' nd s kwargs))).
Proof.
  unfold run_node.
  destruct (update_data' (data nd) None kwargs) as [d [e|]]; simpl;
    [discriminate|].
  unfold get_prompt, build_prompt, update_seed; simpl.
  destruct (build_components s d _) as [comps|e] eqn:E; simpl;
    [intros _; exact E | discriminate].
Qed.

End NodeFacts.


(** C3 (as stated, refuted): the second of two identical calls on one
    instance meets the data the first one rewrote.  On the base class it
    raises where a first call on a fresh node returns; on a subclass
    that resolves an entry of the data it returns another prompt. *)
Lemma C3_second_call_sees_first :
  fst (Node_run_node (init string 0 nested_data []) 3 [("k", VStr "k.j")])
  = Ok "" /\
  data (snd (Node_run_node (init string 0 nested_data []) 3
               [("k", VStr "k.j")])) = [("k", VStr "v")] /\
  fst (Node_run_node
         (snd (Node_run_node (init string 0 nested_data []) 3
                 [("k", VStr "k.j")])) 3 [("k", VStr "k.j")])
  = Raise LookupError /\
  fst (Color_run_node counter_rng float_of_digits
         (init string 0 chain_data []) 3 chain_inputs) = Ok "B" /\
  fst (Color_run_node counter_rng float_of_digits
         (snd (Color_run_node counter_rng float_of_digits
                 (init string 0 chain_data []) 3 chain_inputs))
         3 chain_inputs) = Ok "C".
Proof. repeat split. Qed.

(** C2 (the code at the failing inputs): an input left at ["random"] is
    written all the same.  As the first input it finds [output] unbound
    and the call raises; after another input it receives that input's
    looked-up value, here ["v"] in place of ["keep"]. *)
Theorem C2_random_input_is_written :
  (forall (nd : node string) (s : Z) (arg : string)
          (rest : list (string * pyval)),
      Node_run_node nd s ((arg, VStr "random") :: rest)
      = (Raise UnboundLocalError, nd)) /\
  data (snd (Node_run_node
               (init string 0 [("k", VStr "v"); ("a", VStr "keep")] [])
               3 [("x", VStr "k"); ("a", VStr "random")]))
  = [("k", VStr "v"); ("a", VStr "v"); ("x", VStr "v")].
Proof.
  split; [|reflexivity].
  intros [s0 d c p] s arg rest. reflexivity.
Qed.

(** * Further properties of the code *)

(** ** Strings without the separator's first character *)

Section CharFreeFacts.

Import PyStr.

Variable c : ascii.

Abbreviation free s := (contains (String c "") s = false).

Lemma free_cons (x : ascii) (s : string) :
  free (String x s) <-> Ascii.eqb c x = false /\ free s.
Proof.
  cbn [contains starts_with]. rewrite andb_true_r.
  apply orb_false_iff.
Qed.

Lemma free_app (a b : string) : free a -> free b -> free (a ++ b).
Proof.
  induction a as [|x a IH]; intros Ha Hb; [exact Hb|].
  apply free_cons in Ha as [Hx Ha]. cbn [append].
  apply free_cons. split; [exact Hx | now apply IH].
Qed.

Lemma contains_app_sep (a b : string) :
  contains (String c "") (a ++ String c b) = true.
Proof.
  induction a as [|x a IH]; cbn [append contains starts_with].
  - now rewrite Ascii.eqb_refl.
  - rewrite IH. apply orb_true_r.
Qed.

Lemma starts_with_free (old' : string) (x : ascii) (s : string) :
  Ascii.eqb c x = false -> starts_with (String c old') (String x s) = false.
Proof. intros H. cbn [starts_with]. now rewrite H. Qed.

(** A scan for [old] passes unchanged over a prefix that never holds the
    first character of [old]. *)
Lemma replace_from_free_prefix (old' new a rest : string) :
  free a ->
  replace_from (String c old') new 0 (a ++ rest)
  = a ++ replace_from (String c old') new 0 rest.
Proof.
  induction a as [|x a IH]; intros Ha; [reflexivity|].
  apply free_cons in Ha as [Hx Ha].
  cbn [append replace_from].
  rewrite <- (IH Ha).
  change (String x (a ++ rest)) with (String x a ++ rest).
  cbn [append]. now rewrite (starts_with_free old' x (a ++ rest) Hx).
Qed.

Lemma split_from_free_prefix (sep' cur a rest : string) :
  free a ->
  split_from (String c sep') 0 cur (a ++ rest)
  = split_from (String c sep') 0 (cur ++ a) rest.
Proof.
  revert cur. induction a as [|x a IH]; intros cur Ha.
  - now rewrite append_nil_r.
  - apply free_cons in Ha as [Hx Ha].
    cbn [append split_from].
    rewrite (starts_with_free sep' x (a ++ rest) Hx).
    rewrite (IH _ Ha). now rewrite append_assoc.
Qed.

Lemma replace_from_free (old' new a : string) :
  free a -> replace_from (String c old') new 0 a = a.
Proof.
  intros Ha. rewrite <- (append_nil_r a) at 1.
  rewrite replace_from_free_prefix by exact Ha.
  apply append_nil_r.
Qed.

Lemma split_from_free (sep' cur a : string) :
  free a -> split_from (String c sep') 0 cur a = [cur ++ a].
Proof.
  intros Ha. rewrite <- (append_nil_r a) at 1.
  now rewrite split_from_free_prefix by exact Ha.
Qed.

(** The first piece of a split on a one-character separator never holds
    the separator. *)
Lemma split_from_head_free (s : string) :
  forall cur, free cur ->
    free (hd "" (split_from (String c "") 0 cur s)).
Proof.
  induction s as [|x s IH]; intros cur Hcur; [exact Hcur|].
  cbn [split_from starts_with]. rewrite andb_true_r.
  destruct (Ascii.eqb c x) eqn:E; [exact Hcur|].
  apply IH. apply free_app; [exact Hcur|].
  apply free_cons. split; [exact E | reflexivity].
Qed.

End CharFreeFacts.

(** ** The serializer on clean tags *)

Definition clean_tag (t : string) : Prop :=
  t <> "" /\ PyStr.contains "," t = false.

Lemma join_first_char (sep : string) (x : ascii) (t : string)
  (l : list string) :
  exists rest, PyStr.join sep (String x t :: l) = String x rest.
Proof. destruct l; simpl; eauto. Qed.

Lemma replace_after_separator (x : ascii) (rest : string) :
  Ascii.eqb "," x = false ->
  PyStr.replace_from ", ," "," 0 (", " ++ String x rest)
  = ", " ++ PyStr.replace_from ", ," "," 0 (String x rest).
Proof.
  intros H. cbn [append].
  change (PyStr.replace_from ", ," "," 0 (String "," (String " " (String x rest))))
    with (if PyStr.starts_with ", ," (String "," (String " " (String x rest)))
          then "," ++ PyStr.replace_from ", ," "," 2 (String " " (String x rest))
          else String ","
                 (PyStr.replace_from ", ," "," 0 (String " " (String x rest)))).
  cbn [PyStr.starts_with]. rewrite H.
  cbn [Ascii.eqb Bool.eqb andb]. reflexivity.
Qed.

Lemma replace_join_clean (l : list string) :
  Forall clean_tag l ->
  PyStr.replace_from ", ," "," 0 (PyStr.join ", " l) = PyStr.join ", " l.
Proof.
  induction 1 as [|x l [Hx Hfree] Hl IH]; [reflexivity|].
  destruct l as [|y l'].
  - simpl. now apply replace_from_free.
  - rewrite join_cons by discriminate.
    rewrite replace_from_free_prefix by exact Hfree. f_equal.
    inversion Hl as [|? ? [Hy Hyfree] _]; subst.
    destruct y as [|c0 y']; [congruence|].
    apply free_cons in Hyfree as [Hc0 _].
    destruct (join_first_char ", " c0 y' l') as [rest E].
    rewrite E in *.
    rewrite replace_after_separator by exact Hc0.
    now rewrite IH.
Qed.

Lemma stringify_tags_clean_join (l : list string) :
  Forall clean_tag l -> stringify_tags l = PyStr.join ", " l.
Proof.
  intros H. unfold stringify_tags, PyStr.replace.
  now apply replace_join_clean.
Qed.

(** X1: tags that are non-empty and hold no comma are serialized to
    their plain [", "]-join; the normalization pass changes nothing. *)
Theorem stringify_tags_clean (l : list string) :
  Forall clean_tag l -> stringify_tags l = PyStr.join ", " l.
Proof. exact (stringify_tags_clean_join l). Qed.

Lemma stringify_tags_clean_witness :
  stringify_tags ["red hair"; "blue eyes"] = "red hair, blue eyes".
Proof.
  apply (stringify_tags_clean ["red hair"; "blue eyes"]).
  repeat constructor; discriminate.
Defined.

Lemma split_join_free (l : list string) :
  l <> [] ->
  Forall (fun t => PyStr.contains "," t = false) l ->
  forall cur,
    PyStr.split_from ", " 0 cur (PyStr.join ", " l)
    = match l with
      | [] => []
      | x :: rest => (cur ++ x) :: rest
      end.
Proof.
  intros Hne H. induction H as [|x l Hx Hl IH]; [congruence|].
  intros cur. destruct l as [|y l'].
  - simpl. now apply split_from_free.
  - rewrite join_cons by discriminate.
    rewrite split_from_free_prefix by exact Hx.
    cbn [append PyStr.split_from PyStr.starts_with].
    cbn [Ascii.eqb Bool.eqb andb String.length Nat.sub].
    rewrite (IH ltac:(discriminate) ""). reflexivity.
Qed.

(** X2: a non-empty sequence of clean tags is recovered from its
    serialization by splitting on [", "]. *)
Theorem split_stringify_tags (l : list string) :
  l <> [] ->
  Forall clean_tag l ->
  PyStr.split ", " (stringify_tags l) = l.
Proof.
  intros Hne H. rewrite stringify_tags_clean_join by exact H.
  unfold PyStr.split. rewrite split_join_free.
  - destruct l; [congruence | reflexivity].
  - exact Hne.
  - eapply Forall_impl; [|exact H]. now intros t [_ Ht].
Qed.

Lemma split_stringify_tags_witness :
  PyStr.split ", " (stringify_tags ["red hair"; "blue eyes"; "smile"])
  = ["red hair"; "blue eyes"; "smile"].
Proof.
  apply (split_stringify_tags ["red hair"; "blue eyes"; "smile"]).
  - discriminate.
  - repeat constructor; discriminate.
Defined.

(** X3: an empty fragment between two comma-free fragments leaves no
    trace: the doubled separator is collapsed to a single one. *)
Theorem stringify_tags_empty_between (a b : string) :
  PyStr.contains "," a = false ->
  PyStr.contains "," b = false ->
  stringify_tags [a; ""; b] = a ++ ", " ++ b.
Proof.
  intros Ha Hb. unfold stringify_tags, PyStr.replace.
  cbn [PyStr.join].
  rewrite replace_from_free_prefix by exact Ha. f_equal.
  cbn [append PyStr.replace_from PyStr.starts_with].
  cbn [Ascii.eqb Bool.eqb andb String.length Nat.sub].
  now rewrite replace_from_free by exact Hb.
Qed.

Lemma stringify_tags_empty_between_witness :
  stringify_tags ["standing"; ""; "forest"] = "standing, forest".
Proof.
  apply (stringify_tags_empty_between "standing" "forest"); reflexivity.
Defined.

(** ** The parser on well-formed entries *)

(** An entry as a configuration writes it: a name, alone or followed by
    a colon and the text of a weight. *)
Definition render_entry (e : string * option (string * Q)) : string :=
  match snd e with
  | None => fst e
  | Some (weight, _) => fst e ++ ":" ++ weight
  end.

Definition entry_weight (e : string * option (string * Q)) : Q :=
  match snd e with
  | None => 1
  | Some (_, w) => w
  end.

Lemma split_colon_pair (a b : string) :
  PyStr.contains ":" a = false ->
  PyStr.contains ":" b = false ->
  PyStr.split ":" (a ++ ":" ++ b) = [a; b].
Proof.
  intros Ha Hb. unfold PyStr.split.
  rewrite split_from_free_prefix by exact Ha.
  cbn [append PyStr.split_from PyStr.starts_with].
  rewrite Ascii.eqb_refl. cbn [andb String.length Nat.sub].
  now rewrite split_from_free by exact Hb.
Qed.

Lemma contains_colon_pair (a b : string) :
  PyStr.contains ":" (a ++ ":" ++ b) = true.
Proof. exact (contains_app_sep ":"%char a b). Qed.

Lemma Qsum_ones {A : Type} (l : list A) :
  Qsum (map (fun _ => 1) l) == inject_Z (Z.of_nat (List.length l)).
Proof.
  induction l as [|x l IH]; [reflexivity|].
  cbn [map Qsum List.length]. rewrite IH, Nat2Z.inj_succ.
  unfold Z.succ. rewrite inject_Z_plus. ring.
Qed.

Section ParserMore.

Variable py_float : string -> result Q.

Definition well_formed (e : string * option (string * Q)) : Prop :=
  PyStr.contains ":" (fst e) = false /\
  match snd e with
  | None => True
  | Some (weight, w) =>
      PyStr.contains ":" weight = false /\ py_float weight = Ok w
  end.

Lemma parse_entry_rendered (e : string * option (string * Q)) :
  well_formed e ->
  parse_entry py_float (VStr (render_entry e)) = Ok (fst e, entry_weight e).
Proof.
  destruct e as [nm [[wt w]|]]; unfold well_formed, render_entry,
    entry_weight, parse_entry; cbn [fst snd py_in bind].
  - intros (Hn & Hw & Hf).
    rewrite contains_colon_pair. cbn [bind].
    rewrite (split_colon_pair nm wt Hn Hw), Hf. reflexivity.
  - intros [Hn _]. now rewrite Hn.
Qed.

Lemma parse_entries_rendered (l : list (string * option (string * Q))) :
  Forall well_formed l ->
  parse_entries py_float (map (fun e => VStr (render_entry e)) l)
  = Ok (map fst l, map entry_weight l).
Proof.
  induction 1 as [|e l He _ IH]; [reflexivity|].
  cbn [map parse_entries]. rewrite (parse_entry_rendered e He).
  cbn [bind]. now rewrite IH.
Qed.

(** X4: entries written as a colon-free name, alone or with one colon
    and a weight text that [float] reads, are all accepted: the names
    come back in order, and the weights are the ones read (1 for a bare
    name) divided by their sum. *)
Theorem parse_tag_distribution_rendered
  (l : list (string * option (string * Q))) :
  Forall well_formed l ->
  parse_tag_distribution py_float
    (VList (map (fun e => VStr (render_entry e)) l))
  = Ok (map fst l,
        map (fun w => w / Qsum (map entry_weight l)) (map entry_weight l)).
Proof.
  intros H. unfold parse_tag_distribution. cbn [py_iter bind].
  now rewrite (parse_entries_rendered l H).
Qed.

(** X5: the first entry whose weight text [float] refuses makes the
    parser raise that exception, whatever follows it; no default weight
    is substituted. *)
Theorem parse_tag_distribution_bad_weight
  (l : list (string * option (string * Q))) (name weight : string)
  (e : exn) (rest : list pyval) :
  Forall well_formed l ->
  PyStr.contains ":" name = false ->
  PyStr.contains ":" weight = false ->
  py_float weight = Raise e ->
  parse_tag_distribution py_float
    (VList (map (fun e => VStr (render_entry e)) l
            ++ VStr (name ++ ":" ++ weight) :: rest))
  = Raise e.
Proof.
  intros Hl Hn Hw Hf. unfold parse_tag_distribution. cbn [py_iter bind].
  induction Hl as [|x l Hx _ IH].
  - cbn [map app parse_entries]. unfold parse_entry. cbn [py_in bind].
    rewrite contains_colon_pair. cbn [bind].
    now rewrite (split_colon_pair name weight Hn Hw), Hf.
  - cbn [map app parse_entries]. rewrite (parse_entry_rendered x Hx).
    cbn [bind].
    destruct (parse_entries py_float _) as [[nms wts]|e'];
      [discriminate | cbn [bind] in *; congruence].
Qed.

(** X6: a list of bare colon-free names gets the uniform distribution:
    every name has probability 1 over the number of names. *)
Theorem parse_tag_distribution_uniform (l : list string) :
  Forall (fun t => PyStr.contains ":" t = false) l ->
  exists probs,
    parse_tag_distribution py_float (VList (map VStr l)) = Ok (l, probs) /\
    List.length probs = List.length l /\
    Forall (fun p => p == 1 / inject_Z (Z.of_nat (List.length l))) probs.
Proof.
  intros H. unfold parse_tag_distribution. cbn [py_iter bind].
  rewrite (parse_entries_plain py_float l H). cbn [bind].
  eexists. split; [reflexivity|]. split; [now rewrite !length_map|].
  apply Forall_map, Forall_map, Forall_forall. intros t _.
  now rewrite Qsum_ones.
Qed.

End ParserMore.

Lemma parse_tag_distribution_rendered_witness :
  parse_tag_distribution float_of_digits
    (VList [VStr "red:3"; VStr "blue"])
  = Ok (["red"; "blue"], [3 # 4; 1 # 4]).
Proof.
  apply (parse_tag_distribution_rendered float_of_digits
           [("red", Some ("3", inject_Z 3)); ("blue", None)]).
  repeat constructor.
Defined.

Lemma parse_tag_distribution_bad_weight_witness :
  parse_tag_distribution float_of_digits
    (VList [VStr "red:3"; VStr "blue:many"; VInt 7])
  = Raise ValueError.
Proof.
  apply (parse_tag_distribution_bad_weight float_of_digits
           [("red", Some ("3", inject_Z 3))] "blue" "many" ValueError
           [VInt 7]).
  - repeat constructor.
  - reflexivity.
  - reflexivity.
  - reflexivity.
Defined.

Lemma parse_tag_distribution_uniform_witness :
  exists probs,
    parse_tag_distribution float_of_digits
      (VList (map VStr ["x"; "y"; "z"])) = Ok (["x"; "y"; "z"], probs) /\
    List.length probs = 3%nat /\
    Forall (fun p => p == 1 / inject_Z 3) probs.
Proof.
  apply (parse_tag_distribution_uniform float_of_digits ["x"; "y"; "z"]).
  repeat constructor.
Defined.

(** ** The input list *)

Lemma entry_names_strings (l : list string) :
  entry_names (map VStr l)
  = Ok (map (fun t => hd "" (PyStr.split ":" t)) l).
Proof.
  induction l as [|t l IH]; [reflexivity|].
  cbn [map entry_names]. now rewrite IH.
Qed.


Section InputsAgree.

Variable py_float : string -> result Q.

Lemma entry_parsed_head (s : string) (nw : string * Q) :
  entry_parsed py_float s nw -> hd "" (PyStr.split ":" s) = fst nw.
Proof.
  intros [[Hfree ->]|(w & Hs & _)].
  - unfold PyStr.split. now rewrite split_from_free by exact Hfree.
  - now rewrite Hs.
Qed.

(** X8: whenever the parser accepts a sequence of strings, the names
    the input list offers after ["random"] are exactly the names the
    parser samples from. *)
Theorem build_inputs_list_agrees (l : list string) (names : list string)
  (probs : list Q) :
  parse_tag_distribution py_float (VList (map VStr l)) = Ok (names, probs) ->
  build_inputs_list (VList (map VStr l)) = Ok ("random" :: names).
Proof.
  unfold parse_tag_distribution, build_inputs_list. cbn [py_iter bind].
  rewrite entry_names_strings. cbn [bind].
  destruct (parse_entries py_float (map VStr l)) as [[nms wts]|e] eqn:E;
    cbn [bind]; [|discriminate].
  intros H. injection H as <- _.
  pose proof (parse_entries_spec py_float l _ _ E) as HS.
  destruct (parse_entries_length py_float _ _ _ E) as [L1 L2].
  rewrite length_map in L1, L2.
  do 2 f_equal.
  clear E. revert nms wts L1 L2 HS.
  induction l as [|t l IH]; intros nms wts L1 L2 HS.
  - destruct nms; [reflexivity | discriminate].
  - destruct nms as [|nm nms]; [discriminate|].
    destruct wts as [|w wts]; [discriminate|].
    cbn [combine] in HS. inversion HS as [|? ? ? ? Hh Ht]; subst.
    cbn [map]. f_equal.
    + exact (entry_parsed_head t (nm, w) Hh).
    + apply (IH nms wts); simpl in *; try lia; assumption.
Qed.

End InputsAgree.

Lemma build_inputs_list_agrees_witness :
  build_inputs_list (VList (map VStr ["red:3"; "blue"]))
  = Ok ["random"; "red"; "blue"].
Proof.
  apply (build_inputs_list_agrees float_of_digits ["red:3"; "blue"]
           ["red"; "blue"] [3 # 4; 1 # 4]).
  reflexivity.
Defined.

(** ** The resolver: draws, bounds and precedence *)

Definition no_list_key (tags : pyval) : Prop :=
  match tags with
  | VDict d => PyDict.lookup d "list" = None
  | _ => True
  end.

Definition scalar_repeat (n : pyval) : Prop :=
  match n with
  | VList _ => False
  | _ => True
  end.

Section ResolverMore.

Variable G : Generator.
Variable py_float : string -> result Q.

(** X9: over a non-empty list of plain tags, a repeat count of at most
    the size of the list is served without replacement: that many tags
    of the list are returned, taken at distinct positions, so distinct
    tags give distinct results. *)
Theorem select_tags_without_replacement (self_seed : Z) (l : list string)
  (p : pyval) (n : Z) (s : option Z) :
  l <> [] ->
  Forall (fun t => PyStr.contains ":" t = false) l ->
  (0 <= n <= Z.of_nat (List.length l))%Z ->
  exists sel,
    select_tags G py_float self_seed (VList (map VStr l)) p (VInt n) s
    = Ok (stringify_tags sel) /\
    List.length sel = Z.to_nat n /\
    incl sel l /\
    (NoDup l -> NoDup sel).
Proof.
  intros Hne Hplain Hn. rewrite select_tags_seq. unfold draw_tags.
  destruct (draw_names_plain G py_float
              (default_rng G (seed_or s self_seed)) l n Hplain Hne Hn)
    as (idx & D & L & ND & B).
  rewrite D. cbn [bind].
  exists (map (fun i => nth i l "") idx). repeat split.
  - now rewrite length_map.
  - now apply drawn_incl.
  - intros Hl. now apply drawn_NoDup.
Qed.

(** X10: resolving a single tag from a list of plain tags that hold no
    [", ,"] returns one of the configured tags, verbatim. *)
Theorem select_tags_single_verbatim (self_seed : Z) (l : list string)
  (p : pyval) (s : option Z) :
  l <> [] ->
  Forall (fun t => PyStr.contains ":" t = false /\
                   PyStr.contains ", ," t = false) l ->
  exists t,
    In t l /\
    select_tags G py_float self_seed (VList (map VStr l)) p (VInt 1) s = Ok t.
Proof.
  intros Hne Hl.
  assert (Hplain : Forall (fun t => PyStr.contains ":" t = false) l)
    by (eapply Forall_impl; [|exact Hl]; now intros t [H _]).
  assert (Hn : (0 <= 1 <= Z.of_nat (List.length l))%Z)
    by (destruct l; [congruence | simpl; lia]).
  rewrite select_tags_seq. unfold draw_tags.
  destruct (draw_names_plain G py_float
              (default_rng G (seed_or s self_seed)) l 1 Hplain Hne Hn)
    as (idx & D & L & ND & B).
  rewrite D. cbn [bind].
  destruct idx as [|i [|j idx]]; try discriminate.
  inversion B as [|? ? Hi _]; subst.
  exists (nth i l ""). split; [now apply nth_In|].
  cbn [map]. unfold stringify_tags. cbn [PyStr.join].
  unfold PyStr.replace. rewrite replace_from_absent; [reflexivity|].
  rewrite Forall_forall in Hl. apply (Hl (nth i l "")). now apply nth_In.
Qed.

(** X11: an empty tag list cannot be sampled: for every integer repeat
    count, zero included, [select_tags] raises [ValueError]. *)
Theorem select_tags_empty_list (self_seed : Z) (p : pyval) (n : Z)
  (s : option Z) :
  select_tags G py_float self_seed (VList []) p (VInt n) s = Raise ValueError.
Proof.
  rewrite select_tags_seq. unfold draw_tags, draw_names,
    parse_tag_distribution.
  cbn [py_iter parse_entries bind map py_size].
  destruct (n <? 0)%Z; [reflexivity|]. cbn [bind].
  unfold choice. destruct (Z.to_nat n); reflexivity.
Qed.

(** X12: a repeat range whose lower bound is not below the clamped upper
    bound (a range [[k, k]], or a lower bound at or above the number of
    tags) makes the node raise [ValueError], before the probability is
    even tested. *)
Theorem select_tags_empty_range (self_seed : Z) (s : option Z)
  (d : list (string * pyval)) (tags : list pyval) (lo hi : Z)
  (p0 n0 : pyval) :
  PyDict.lookup d "list" = None ->
  PyDict.lookup d "tags" = Some (VList tags) ->
  PyDict.lookup d "repeat" = Some (VList [VInt lo; VInt hi]) ->
  (Z.min hi (Z.of_nat (List.length tags)) <= lo)%Z ->
  select_tags G py_float self_seed (VDict d) p0 n0 s = Raise ValueError.
Proof.
  intros Hlist Htags Hrep Hlo.
  rewrite select_tags_dict. cbv zeta. rewrite Hlist. cbn [bind].
  rewrite (fire_tags G _ _ _ _ _ Htags).
  unfold PyDict.get. rewrite Hrep.
  unfold draw_repeat, py_min, integers.
  cbn [py_index nth_error bind py_len as_number].
  set (P := Z.of_nat (List.length tags)) in *.
  destruct (Qlt_le_dec (inject_Z P) (inject_Z hi)) as [Hlt|Hle].
  - rewrite <- Zlt_Qlt in Hlt. cbn [bind py_int].
    destruct (Z.ltb_spec lo P); [lia | reflexivity].
  - rewrite <- Zle_Qle in Hle. cbn [bind py_int].
    destruct (Z.ltb_spec lo hi); [lia | reflexivity].
Qed.

(** X13: a node whose uniform draw exceeds its probability resolves to
    the empty string without its tags being parsed or its repeat count
    being used: malformed tags go unnoticed on that run. *)
Theorem select_tags_skipped (self_seed : Z) (s : option Z)
  (d : list (string * pyval)) (p0 n0 : pyval) (q : Q) :
  PyDict.lookup d "list" = None ->
  scalar_repeat (PyDict.get d "repeat" n0) ->
  as_number (PyDict.get d "probability" p0) = Some q ->
  q < fst (rng_random G (default_rng G (seed_or s self_seed))) ->
  select_tags G py_float self_seed (VDict d) p0 n0 s = Ok "".
Proof.
  intros Hlist Hrep Hprob Hq.
  rewrite select_tags_dict. cbv zeta. rewrite Hlist. cbn [bind].
  assert (Hdraw : forall rng tg,
             draw_repeat G rng tg (PyDict.get d "repeat" n0)
             = Ok (PyDict.get d "repeat" n0, rng)).
  { intros rng tg. destruct (PyDict.get d "repeat" n0);
      try reflexivity. destruct Hrep. }
  destruct (PyDict.lookup d "tags") as [tg|] eqn:Htags.
  - rewrite (fire_tags G _ _ _ _ _ Htags), Hdraw. cbn [bind].
    unfold py_gt. rewrite Hprob.
    destruct (Qlt_le_dec q _) as [_|Hle]; [reflexivity|].
    exfalso. exact (Qlt_not_le _ _ Hq Hle).
  - rewrite (fire_no_tags G _ _ _ _ Htags), Hdraw. cbn [bind].
    unfold py_gt. rewrite Hprob.
    destruct (Qlt_le_dec q _) as [_|Hle]; [reflexivity|].
    exfalso. exact (Qlt_not_le _ _ Hq Hle).
Qed.

(** X14: the [p] and [n] arguments are defaults only: on a node that
    carries both a [probability] and a [repeat] field they have no
    effect on the result. *)
Theorem select_tags_fields_override (self_seed : Z) (s : option Z)
  (d : list (string * pyval)) (p n p' n' : pyval) :
  PyDict.mem d "probability" = true ->
  PyDict.mem d "repeat" = true ->
  select_tags G py_float self_seed (VDict d) p n s
  = select_tags G py_float self_seed (VDict d) p' n' s.
Proof.
  unfold PyDict.mem. intros Hp Hn.
  rewrite !select_tags_dict. unfold PyDict.get.
  destruct (PyDict.lookup d "probability"); [|discriminate].
  destruct (PyDict.lookup d "repeat"); [|discriminate].
  reflexivity.
Qed.

(** X15: with an explicit non-zero seed and no [list] indirection the
    result does not depend on the seed the node holds. *)
Theorem select_tags_explicit_seed (self1 self2 s : Z) (tags p n : pyval) :
  s <> 0%Z ->
  no_list_key tags ->
  select_tags G py_float self1 tags p n (Some s)
  = select_tags G py_float self2 tags p n (Some s).
Proof.
  intros Hs Hk.
  assert (E : forall self, seed_or (Some s) self = s).
  { intros self. unfold seed_or. destruct (Z.eqb_spec s 0); congruence. }
  destruct tags as [| | | | |l|d];
    try (cbn [select_tags]; rewrite ?E; reflexivity).
  simpl in Hk. rewrite !select_tags_dict. cbv zeta.
  rewrite Hk, !E. reflexivity.
Qed.

(** X16: when the [list] field is a plain string naming a key the node
    does not have, [select_tags] raises [KeyError]. *)
Theorem select_tags_list_missing_key (self_seed : Z) (s : option Z)
  (d : list (string * pyval)) (k : string) (p n : pyval) :
  PyDict.lookup d "list" = Some (VStr k) ->
  PyDict.lookup d k = None ->
  select_tags G py_float self_seed (VDict d) p n s = Raise KeyError.
Proof.
  intros Hlist Hk. rewrite select_tags_dict. cbv zeta. rewrite Hlist.
  cbn [select_tags bind]. unfold PyDict.getitem. now rewrite Hk.
Qed.

(** X17: weights that sum to zero cannot be normalized into
    probabilities: whatever the integer repeat count, the draw raises
    [ValueError]. *)
Theorem select_tags_zero_sum_weights (self_seed : Z) (s : option Z)
  (items : list pyval) (names : list string) (ws : list Q)
  (p : pyval) (n : Z) :
  parse_entries py_float items = Ok (names, ws) ->
  Qsum ws == 0 ->
  select_tags G py_float self_seed (VList items) p (VInt n) s
  = Raise ValueError.
Proof.
  intros Hparse Hsum. rewrite select_tags_seq.
  unfold draw_tags, draw_names, parse_tag_distribution.
  cbn [py_iter bind]. rewrite Hparse. cbn [bind py_size].
  destruct (n <? 0)%Z; [reflexivity|]. cbn [bind]. unfold choice.
  assert (E : Qeq_bool (Qsum (map (fun w => w / Qsum ws) ws)) 1 = false).
  { destruct (Qeq_bool _ 1) eqn:B; [|reflexivity].
    apply Qeq_bool_eq in B. rewrite Qsum_scaled, Hsum in B.
    discriminate B. }
  rewrite E. cbn [negb]. rewrite !orb_true_r. reflexivity.
Qed.

End ResolverMore.

Lemma select_tags_without_replacement_witness :
  exists sel,
    select_tags counter_rng float_of_digits 7
      (VList (map VStr ["x"; "y"; "z"])) (VInt 1) (VInt 2) None
    = Ok (stringify_tags sel) /\
    List.length sel = 2%nat /\
    incl sel ["x"; "y"; "z"] /\
    (NoDup ["x"; "y"; "z"] -> NoDup sel).
Proof.
  apply (select_tags_without_replacement counter_rng float_of_digits 7
           ["x"; "y"; "z"] (VInt 1) 2 None).
  - discriminate.
  - repeat constructor.
  - simpl; lia.
Defined.

Lemma select_tags_single_verbatim_witness :
  exists t,
    In t ["long hair"; "short hair"] /\
    select_tags counter_rng float_of_digits 7
      (VList (map VStr ["long hair"; "short hair"])) (VInt 1) (VInt 1) None
    = Ok t.
Proof.
  apply (select_tags_single_verbatim counter_rng float_of_digits 7
           ["long hair"; "short hair"] (VInt 1) None).
  - discriminate.
  - repeat constructor.
Defined.

Lemma select_tags_empty_range_witness :
  select_tags counter_rng float_of_digits 7
    (VDict [("tags", VList [VStr "a"; VStr "b"]);
            ("repeat", VList [VInt 2; VInt 2])]) (VInt 1) (VInt 1) None
  = Raise ValueError.
Proof.
  apply (select_tags_empty_range counter_rng float_of_digits 7 None
           [("tags", VList [VStr "a"; VStr "b"]);
            ("repeat", VList [VInt 2; VInt 2])]
           [VStr "a"; VStr "b"] 2 2 (VInt 1) (VInt 1)).
  - reflexivity.
  - reflexivity.
  - reflexivity.
  - simpl; lia.
Defined.

Lemma select_tags_skipped_witness :
  select_tags counter_rng float_of_digits 1
    (VDict [("probability", VFloat (1 # 4)); ("tags", VInt 5)])
    (VInt 1) (VInt 1) None
  = Ok "".
Proof.
  apply (select_tags_skipped counter_rng float_of_digits 1 None
           [("probability", VFloat (1 # 4)); ("tags", VInt 5)]
           (VInt 1) (VInt 1) (1 # 4)).
  - reflexivity.
  - exact I.
  - reflexivity.
  - reflexivity.
Defined.

Lemma select_tags_fields_override_witness :
  select_tags counter_rng float_of_digits 7
    (VDict [("probability", VInt 1); ("repeat", VInt 1);
            ("tags", VList [VStr "a"; VStr "b"])]) (VInt 0) (VInt 2) None
  = select_tags counter_rng float_of_digits 7
      (VDict [("probability", VInt 1); ("repeat", VInt 1);
              ("tags", VList [VStr "a"; VStr "b"])]) (VInt 1) (VInt 1) None.
Proof.
  apply (select_tags_fields_override counter_rng float_of_digits 7 None
           [("probability", VInt 1); ("repeat", VInt 1);
            ("tags", VList [VStr "a"; VStr "b"])]);
    reflexivity.
Defined.

Lemma select_tags_explicit_seed_witness :
  select_tags counter_rng float_of_digits 1
    (VList [VStr "a"; VStr "b"]) (VInt 1) (VInt 1) (Some 5%Z)
  = select_tags counter_rng float_of_digits 2
      (VList [VStr "a"; VStr "b"]) (VInt 1) (VInt 1) (Some 5%Z).
Proof.
  apply (select_tags_explicit_seed counter_rng float_of_digits 1 2 5
           (VList [VStr "a"; VStr "b"]) (VInt 1) (VInt 1)).
  - discriminate.
  - exact I.
Defined.

Lemma select_tags_list_missing_key_witness :
  select_tags counter_rng float_of_digits 7
    (VDict [("list", VStr "hair"); ("eyes", VList [VStr "blue"])])
    (VInt 1) (VInt 1) None
  = Raise KeyError.
Proof.
  apply (select_tags_list_missing_key counter_rng float_of_digits 7 None
           [("list", VStr "hair"); ("eyes", VList [VStr "blue"])] "hair");
    reflexivity.
Defined.

Lemma select_tags_zero_sum_weights_witness :
  select_tags counter_rng float_of_digits 7
    (VList [VStr "a:0"; VStr "b:0"]) (VInt 1) (VInt 1) None
  = Raise ValueError.
Proof.
  apply (select_tags_zero_sum_weights counter_rng float_of_digits 7 None
           [VStr "a:0"; VStr "b:0"] ["a"; "b"] [0; 0] (VInt 1) 1);
    reflexivity.
Defined.

(** ** The entry point: what a run writes *)

Lemma lookup_set_same (d : list (string * pyval)) (k : string) (v : pyval) :
  PyDict.lookup (PyDict.set d k v) k = Some v.
Proof.
  induction d as [|[k' v'] d IH]; simpl.
  - now rewrite String.eqb_refl.
  - destruct (String.eqb k' k) eqn:E; simpl; now rewrite E.
Qed.

Lemma lookup_set_other (d : list (string * pyval)) (k k' : string)
  (v : pyval) :
  k <> k' -> PyDict.lookup (PyDict.set d k v) k' = PyDict.lookup d k'.
Proof.
  intros Hne. induction d as [|[k0 v0] d IH]; simpl.
  - destruct (String.eqb_spec k k'); [congruence | reflexivity].
  - destruct (String.eqb_spec k0 k) as [->|Hk]; simpl.
    + destruct (String.eqb_spec k k'); [congruence | reflexivity].
    + now rewrite IH.
Qed.

Lemma mem_set (d : list (string * pyval)) (k k' : string) (v : pyval) :
  PyDict.mem (PyDict.set d k v) k' = PyDict.mem d k' || String.eqb k k'.
Proof.
  unfold PyDict.mem. destruct (String.eqb_spec k k') as [->|Hne].
  - rewrite lookup_set_same. now rewrite orb_true_r.
  - rewrite lookup_set_other by exact Hne. now rewrite orb_false_r.
Qed.

Section NodeMore.

Variable comp : Type.
Variable comp_has_seed : comp -> bool.
Variable comp_set_seed : Z -> comp -> comp.
Variable comp_str : comp -> result string.
Variable get_nested_dict_value : list (string * pyval) -> pyval -> result pyval.
Variable build_components :
  Z -> list (string * pyval) -> list (string * comp)
  -> result (list (string * comp)).

Abbreviation run_node'' :=
  (run_node comp comp_has_seed comp_set_seed comp_str
     get_nested_dict_value build_components).
Abbreviation update_data'' := (update_data get_nested_dict_value).

Lemma update_data_frame (kwargs : list (string * pyval)) :
  forall d output k,
    ~ In k (map fst kwargs) ->
    PyDict.lookup (fst (update_data'' d output kwargs)) k
    = PyDict.lookup d k.
Proof.
  induction kwargs as [|[arg value] rest IH]; intros d output k Hk;
    [reflexivity|].
  cbn [update_data]. simpl in Hk.
  destruct (if negb (is_random value) then _ else _) as [o|e];
    [|reflexivity].
  rewrite IH by tauto. apply lookup_set_other. tauto.
Qed.

Lemma update_data_keeps_keys (kwargs : list (string * pyval)) :
  forall d output k,
    PyDict.mem d k = true ->
    PyDict.mem (fst (update_data'' d output kwargs)) k = true.
Proof.
  induction kwargs as [|[arg value] rest IH]; intros d output k Hk;
    [exact Hk|].
  cbn [update_data].
  destruct (if negb (is_random value) then _ else _) as [o|e];
    [|exact Hk].
  apply IH. rewrite mem_set, Hk. reflexivity.
Qed.

Lemma update_data_adds_keys (kwargs : list (string * pyval)) :
  forall d output arg,
    snd (update_data'' d output kwargs) = None ->
    In arg (map fst kwargs) ->
    PyDict.mem (fst (update_data'' d output kwargs)) arg = true.
Proof.
  induction kwargs as [|[a value] rest IH]; intros d output arg Hok Hin;
    [destruct Hin|].
  cbn [update_data] in *.
  destruct (if negb (is_random value) then _ else _) as [o|e];
    [|discriminate].
  destruct (in_dec string_dec arg (map fst rest)) as [Hr|Hr].
  - now apply IH.
  - destruct Hin as [Ha|Hin]; [|contradiction]. simpl in Ha. subst a.
    unfold PyDict.mem. rewrite update_data_frame by exact Hr.
    now rewrite lookup_set_same.
Qed.

Lemma run_node_ok_loop (nd : node comp) (s : Z)
  (kwargs : list (string * pyval)) :
  is_ok (fst (run_node'' nd s kwargs)) = true ->
  snd (update_data'' (data nd) None kwargs) = None.
Proof.
  unfold run_node.
  destruct (update_data'' (data nd) None kwargs) as [d [e|]];
    [discriminate | reflexivity].
Qed.

(** X18: a run writes only the entries named by its inputs: every other
    entry of the node's data is as before, whether the run returns or
    raises. *)
Theorem run_node_frame (nd : node comp) (s : Z)
  (kwargs : list (string * pyval)) (k : string) :
  ~ In k (map fst kwargs) ->
  PyDict.lookup (data (snd (run_node'' nd s kwargs))) k
  = PyDict.lookup (data nd) k.
Proof.
  intros Hk. rewrite run_node_data. now apply update_data_frame.
Qed.

(** X19: a run never removes an entry from the node's data, whether it
    returns or raises. *)
Theorem run_node_keeps_keys (nd : node comp) (s : Z)
  (kwargs : list (string * pyval)) (k : string) :
  PyDict.mem (data nd) k = true ->
  PyDict.mem (data (snd (run_node'' nd s kwargs))) k = true.
Proof.
  intros Hk. rewrite run_node_data. now apply update_data_keeps_keys.
Qed.

(** X20: after a run that returns, every input name is a key of the
    node's data. *)
Theorem run_node_inputs_become_keys (nd : node comp) (s : Z)
  (kwargs : list (string * pyval)) (arg : string) :
  is_ok (fst (run_node'' nd s kwargs)) = true ->
  In arg (map fst kwargs) ->
  PyDict.mem (data (snd (run_node'' nd s kwargs))) arg = true.
Proof.
  intros Hok Hin. rewrite run_node_data.
  apply update_data_adds_keys; [|exact Hin].
  exact (run_node_ok_loop nd s kwargs Hok).
Qed.

(** X21: when the inputs before the last one are written without an
    exception and the last input is not ["random"], the entry under its
    name ends up holding the value looked up for it in the data as the
    earlier inputs left it. *)
Theorem update_data_last_input (pre : list (string * pyval))
  (arg : string) (value o : pyval) :
  forall d output,
    snd (update_data'' d output pre) = None ->
    is_random value = false ->
    get_nested_dict_value (fst (update_data'' d output pre)) value = Ok o ->
    snd (update_data'' d output (pre ++ [(arg, value)])) = None /\
    PyDict.lookup (fst (update_data'' d output (pre ++ [(arg, value)]))) arg
    = Some o.
Proof.
  induction pre as [|[a v] pre IH]; intros d output Hok Hr Hget.
  - cbn [app update_data fst] in *. rewrite Hr. cbn [negb].
    rewrite Hget. cbn [fst snd]. split; [reflexivity|].
    apply lookup_set_same.
  - cbn [app update_data] in *.
    destruct (if negb (is_random v) then _ else _) as [o'|e];
      [|discriminate].
    now apply IH.
Qed.

(** X22: a run that returns leaves the node holding the seed passed in,
    and its stored prompt lists the values of its components in order. *)
Theorem run_node_ok_state (nd : node comp) (s : Z)
  (kwargs : list (string * pyval)) :
  is_ok (fst (run_node'' nd s kwargs)) = true ->
  seed (snd (run_node'' nd s kwargs)) = s /\
  prompt (snd (run_node'' nd s kwargs))
  = map snd (components (snd (run_node'' nd s kwargs))).
Proof.
  unfold run_node.
  destruct (update_data'' (data nd) None kwargs) as [d [e|]];
    [discriminate|].
  unfold get_prompt, build_prompt, update_seed; cbn [seed data components].
  destruct (build_components s d _) as [comps|e]; cbn [bind];
    [|discriminate].
  intros _. split; reflexivity.
Qed.

(** X23: a run whose input loop raises changes the data only: the seed,
    the components and the stored prompt are as before, and the seed
    passed in is dropped. *)
Theorem run_node_loop_raises (nd : node comp) (s : Z)
  (kwargs : list (string * pyval)) (e : exn) :
  snd (update_data'' (data nd) None kwargs) = Some e ->
  fst (run_node'' nd s kwargs) = Raise e /\
  seed (snd (run_node'' nd s kwargs)) = seed nd /\
  components (snd (run_node'' nd s kwargs)) = components nd /\
  prompt (snd (run_node'' nd s kwargs)) = prompt nd.
Proof.
  unfold run_node.
  destruct (update_data'' (data nd) None kwargs) as [d [e'|]];
    cbn [snd]; intros H; [|discriminate].
  injection H as ->. repeat split.
Qed.

End NodeMore.

(** ** The base class *)

Lemma str_all_strings (l : list string) :
  str_all string (fun c => Ok c) l = Ok l.
Proof.
  induction l as [|c l IH]; [reflexivity|].
  cbn [str_all bind]. now rewrite IH.
Qed.

(** X24: the base class builds nothing: whenever its run returns, the
    prompt is the serialization of the components the node already had
    (the empty string for a node without components), whatever the
    seed, the data and the inputs. *)
Theorem Node_run_node_renders_components (nd : node string) (s : Z)
  (kwargs : list (string * pyval)) (out : string) :
  fst (Node_run_node nd s kwargs) = Ok out ->
  out = stringify_tags (map snd (components nd)).
Proof.
  unfold Node_run_node, run_node.
  destruct (update_data dotted_lookup (data nd) None kwargs) as [d [e|]];
    [discriminate|].
  unfold get_prompt, build_prompt, update_seed, Node_build_components.
  cbn [seed data components prompt bind fst].
  rewrite str_all_strings. cbn [bind].
  intros H. injection H as <-.
  now rewrite map_id.
Qed.

Definition keep_data : list (string * pyval) :=
  [("k", VStr "v"); ("a", VStr "keep")].

Lemma Node_run_node_renders_components_witness :
  "" = stringify_tags (map snd (components (init string 0 keep_data []))).
Proof.
  apply (Node_run_node_renders_components (init string 0 keep_data []) 3
           [("x", VStr "k")] "").
  reflexivity.
Defined.

Lemma run_node_frame_witness :
  PyDict.lookup
    (data (snd (Node_run_node (init string 0 keep_data []) 3
                  [("x", VStr "k")]))) "a"
  = PyDict.lookup (data (init string 0 keep_data [])) "a".
Proof.
  apply (run_node_frame string (fun _ => false) (fun _ c => c)
           (fun c => Ok c) dotted_lookup Node_build_components
           (init string 0 keep_data []) 3 [("x", VStr "k")] "a").
  simpl. intros [H|[]]. discriminate.
Defined.

Lemma run_node_keeps_keys_witness :
  PyDict.mem
    (data (snd (Node_run_node (init string 0 keep_data []) 3
                  [("a", VStr "missing")]))) "a" = true.
Proof.
  apply (run_node_keeps_keys string (fun _ => false) (fun _ c => c)
           (fun c => Ok c) dotted_lookup Node_build_components
           (init string 0 keep_data []) 3 [("a", VStr "missing")] "a").
  reflexivity.
Defined.

Lemma run_node_inputs_become_keys_witness :
  PyDict.mem
    (data (snd (Node_run_node (init string 0 keep_data []) 3
                  [("x", VStr "k")]))) "x" = true.
Proof.
  apply (run_node_inputs_become_keys string (fun _ => false) (fun _ c => c)
           (fun c => Ok c) dotted_lookup Node_build_components
           (init string 0 keep_data []) 3 [("x", VStr "k")] "x").
  - reflexivity.
  - simpl. now left.
Defined.

Lemma update_data_last_input_witness :
  snd (update_data dotted_lookup keep_data None
         ([("x", VStr "k")] ++ [("y", VStr "x")])) = None /\
  PyDict.lookup
    (fst (update_data dotted_lookup keep_data None
            ([("x", VStr "k")] ++ [("y", VStr "x")]))) "y"
  = Some (VStr "v").
Proof.
  apply (update_data_last_input dotted_lookup [("x", VStr "k")] "y"
           (VStr "x") (VStr "v") keep_data None); reflexivity.
Defined.

Lemma run_node_ok_state_witness :
  seed (snd (Node_run_node (init string 0 keep_data []) 3
               [("x", VStr "k")])) = 3%Z /\
  prompt (snd (Node_run_node (init string 0 keep_data []) 3
                 [("x", VStr "k")]))
  = map snd (components (snd (Node_run_node (init string 0 keep_data []) 3
                                [("x", VStr "k")]))).
Proof.
  apply (run_node_ok_state string (fun _ => false) (fun _ c => c)
           (fun c => Ok c) dotted_lookup Node_build_components
           (init string 0 keep_data []) 3 [("x", VStr "k")]).
  reflexivity.
Defined.

Lemma run_node_loop_raises_witness :
  fst (Node_run_node (init string 0 keep_data []) 3
         [("a", VStr "random")]) = Raise UnboundLocalError /\
  seed (snd (Node_run_node (init string 0 keep_data []) 3
               [("a", VStr "random")])) = 0%Z /\
  components (snd (Node_run_node (init string 0 keep_data []) 3
                     [("a", VStr "random")])) = [] /\
  prompt (snd (Node_run_node (init string 0 keep_data []) 3
                 [("a", VStr "random")])) = [].
Proof.
  apply (run_node_loop_raises string (fun _ => false) (fun _ c => c)
           (fun c => Ok c) dotted_lookup Node_build_components
           (init string 0 keep_data []) 3 [("a", VStr "random")]
           UnboundLocalError).
  reflexivity.
Defined.

(** ** The [list] indirection *)

Lemma lookup_In (d : list (string * pyval)) (k : string) (v : pyval) :
  PyDict.lookup d k = Some v -> In (k, v) d.
Proof.
  induction d as [|[k' v'] d IH]; simpl; [discriminate|].
  destruct (String.eqb_spec k' k) as [->|_].
  - intros H; injection H as ->. now left.
  - intros H. right. now apply IH.
Qed.

Lemma join_two_has_separator (x y : string) (rest : list string) :
  PyStr.contains "," (PyStr.join ", " (x :: y :: rest)) = true.
Proof.
  rewrite join_cons by discriminate.
  exact (contains_app_sep ","%char x (" " ++ PyStr.join ", " (y :: rest))).
Qed.

Section IndirectionFacts.

Variable G : Generator.
Variable py_float : string -> result Q.

(** The draw over plain tags, as the inner call of the indirection
    makes it. *)
Lemma select_tags_plain_draw (self_seed : Z) (l : list string)
  (p : pyval) (n : Z) (s : option Z) :
  l <> [] ->
  Forall (fun t => PyStr.contains ":" t = false) l ->
  (0 <= n <= Z.of_nat (List.length l))%Z ->
  exists sel,
    select_tags G py_float self_seed (VList (map VStr l)) p (VInt n) s
    = Ok (stringify_tags sel) /\
    List.length sel = Z.to_nat n /\
    incl sel l.
Proof.
  intros Hne Hplain Hn. rewrite select_tags_seq. unfold draw_tags.
  destruct (draw_names_plain G py_float
              (default_rng G (seed_or s self_seed)) l n Hplain Hne Hn)
    as (idx & D & L & ND & B).
  rewrite D. cbn [bind].
  exists (map (fun i => nth i l "") idx). repeat split.
  - now rewrite length_map.
  - now apply drawn_incl.
Qed.

(** X25: the repeat count of a node also drives the draw of its [list]
    field.  With a count of 2 or more the names drawn are joined into
    one string, which is no key of a node whose keys hold no comma:
    [select_tags] raises [KeyError]. *)
Theorem select_tags_list_repeat_raises (self_seed : Z) (s : option Z)
  (d : list (string * pyval)) (keys : list string) (p0 n0 : pyval)
  (n : Z) :
  PyDict.lookup d "list" = Some (VList (map VStr keys)) ->
  Forall (fun t => PyStr.contains ":" t = false /\ clean_tag t) keys ->
  PyDict.get d "repeat" n0 = VInt n ->
  (2 <= n <= Z.of_nat (List.length keys))%Z ->
  Forall (fun kv => PyStr.contains "," (fst kv) = false) d ->
  select_tags G py_float self_seed (VDict d) p0 n0 s = Raise KeyError.
Proof.
  intros Hlist Hkeys Hrep Hn Hd.
  assert (Hne : keys <> []) by (intros ->; simpl in Hn; lia).
  assert (Hplain : Forall (fun t => PyStr.contains ":" t = false) keys)
    by (eapply Forall_impl; [|exact Hkeys]; now intros t [H _]).
  rewrite select_tags_dict. cbv zeta. rewrite Hlist, Hrep.
  destruct (select_tags_plain_draw self_seed keys
              (PyDict.get d "probability" p0) n None Hne Hplain
              ltac:(lia)) as (sel & E & L & I).
  rewrite E. cbn [bind].
  assert (Hclean : Forall clean_tag sel).
  { apply Forall_forall. intros t Ht.
    rewrite Forall_forall in Hkeys. now apply (Hkeys t (I t Ht)). }
  rewrite (stringify_tags_clean_join sel Hclean).
  destruct sel as [|x [|y sel]]; try (simpl in L; lia).
  unfold PyDict.getitem.
  destruct (PyDict.lookup d (PyStr.join ", " (x :: y :: sel)))
    as [v|] eqn:Hl; [|reflexivity].
  apply lookup_In in Hl. rewrite Forall_forall in Hd.
  specialize (Hd _ Hl). cbn [fst] in Hd.
  now rewrite join_two_has_separator in Hd.
Qed.

(** X26: with a repeat count of 1 the [list] field selects one of its
    names, and the node goes on with the entry found under that name
    (raising [KeyError] when there is none). *)
Theorem select_tags_list_selects_entry (self_seed : Z) (s : option Z)
  (d : list (string * pyval)) (keys : list string) (p0 n0 : pyval) :
  PyDict.lookup d "list" = Some (VList (map VStr keys)) ->
  keys <> [] ->
  Forall (fun t => PyStr.contains ":" t = false /\ clean_tag t) keys ->
  PyDict.get d "repeat" n0 = VInt 1 ->
  exists k,
    In k keys /\
    select_tags G py_float self_seed (VDict d) p0 n0 s =
    (tags <- PyDict.getitem d k ;;
     g <- fire G (default_rng G (seed_or s self_seed)) tags
            (PyDict.get d "probability" p0) (VInt 1) ;;
     match g with
     | None => Ok ""
     | Some (tags, n, rng) => draw_tags G py_float rng tags n
     end).
Proof.
  intros Hlist Hne Hkeys Hrep.
  assert (Hplain : Forall (fun t => PyStr.contains ":" t = false) keys)
    by (eapply Forall_impl; [|exact Hkeys]; now intros t [H _]).
  assert (Hn : (0 <= 1 <= Z.of_nat (List.length keys))%Z)
    by (destruct keys; [congruence | simpl; lia]).
  destruct (select_tags_plain_draw self_seed keys
              (PyDict.get d "probability" p0) 1 None Hne Hplain Hn)
    as (sel & E & L & I).
  destruct sel as [|k [|k' sel]]; try discriminate.
  exists k. split; [apply I; now left|].
  rewrite select_tags_dict. cbv zeta. rewrite Hlist, Hrep, E.
  cbn [bind].
  assert (Hclean : Forall clean_tag [k]).
  { constructor; [|constructor].
    rewrite Forall_forall in Hkeys. apply (Hkeys k). apply I. now left. }
  now rewrite (stringify_tags_clean_join [k] Hclean).
Qed.

(** X27: after the indirection the test ["tags" in tags] runs on the
    selected entry itself.  When that entry is a string holding the
    text [tags], or a tag list holding the tag ["tags"], the test
    succeeds and the following [tags.get] raises [AttributeError]. *)
Theorem select_tags_list_entry_named_tags (self_seed : Z) (s : option Z)
  (d : list (string * pyval)) (k : string) (entry : pyval)
  (p0 n0 : pyval) :
  PyDict.lookup d "list" = Some (VStr k) ->
  PyDict.lookup d k = Some entry ->
  match entry with
  | VStr t => PyStr.contains "tags" t = true
  | VList l => In (VStr "tags") l
  | _ => False
  end ->
  select_tags G py_float self_seed (VDict d) p0 n0 s = Raise AttributeError.
Proof.
  intros Hlist Hk He. rewrite select_tags_dict. cbv zeta. rewrite Hlist.
  cbn [select_tags bind]. unfold PyDict.getitem. rewrite Hk. cbn [bind].
  unfold fire. destruct entry as [| | | |t|l|]; try contradiction.
  - cbn [py_in bind]. now rewrite He.
  - cbn [py_in bind].
    assert (E : existsb (fun x => match x with
                                  | VStr s0 => String.eqb s0 "tags"
                                  | _ => false
                                  end) l = true).
    { apply existsb_exists. exists (VStr "tags"). split; [exact He|].
      reflexivity. }
    now rewrite E.
Qed.

End IndirectionFacts.

Definition list_node (repeat : Z) : list (string * pyval) :=
  [("list", VList (map VStr ["hair"; "eyes"]));
   ("repeat", VInt repeat);
   ("hair", VList [VStr "long"; VStr "short"]);
   ("eyes", VList [VStr "blue"])].

Lemma select_tags_list_repeat_raises_witness :
  select_tags counter_rng float_of_digits 7 (VDict (list_node 2))
    (VInt 1) (VInt 1) None
  = Raise KeyError.
Proof.
  apply (select_tags_list_repeat_raises counter_rng float_of_digits 7 None
           (list_node 2) ["hair"; "eyes"] (VInt 1) (VInt 1) 2).
  - reflexivity.
  - repeat constructor; discriminate.
  - reflexivity.
  - simpl; lia.
  - repeat constructor.
Defined.

Lemma select_tags_list_selects_entry_witness :
  exists k,
    In k ["hair"; "eyes"] /\
    select_tags counter_rng float_of_digits 7 (VDict (list_node 1))
      (VInt 1) (VInt 1) None =
    (tags <- PyDict.getitem (list_node 1) k ;;
     g <- fire counter_rng (default_rng counter_rng (seed_or None 7)) tags
            (PyDict.get (list_node 1) "probability" (VInt 1)) (VInt 1) ;;
     match g with
     | None => Ok ""
     | Some (tags, n, rng) => draw_tags counter_rng float_of_digits rng tags n
     end).
Proof.
  apply (select_tags_list_selects_entry counter_rng float_of_digits 7 None
           (list_node 1) ["hair"; "eyes"] (VInt 1) (VInt 1)).
  - reflexivity.
  - discriminate.
  - repeat constructor; discriminate.
  - reflexivity.
Defined.

Lemma select_tags_list_entry_named_tags_witness :
  select_tags counter_rng float_of_digits 7
    (VDict [("list", VStr "kind"); ("kind", VList [VStr "tags"; VStr "x"])])
    (VInt 1) (VInt 1) None
  = Raise AttributeError.
Proof.
  apply (select_tags_list_entry_named_tags counter_rng float_of_digits 7
           None
           [("list", VStr "kind"); ("kind", VList [VStr "tags"; VStr "x"])]
           "kind" (VList [VStr "tags"; VStr "x"]) (VInt 1) (VInt 1)).
  - reflexivity.
  - reflexivity.
  - simpl. now left.
Defined.

(** * The serializer's normalization pass *)

Section ReplaceFacts.

Import PyStr.

(** [s.replace(old, new)] is [new.join(s.split(old))]: both scans meet
    the same occurrences of [old]. *)
Lemma join_split_from_replace (old new : string) (s : string) :
  forall skip cur,
    join new (split_from old skip cur s)
    = cur ++ replace_from old new skip s.
Proof.
  induction s as [|c s IH]; intros skip cur.
  - simpl. now rewrite append_nil_r.
  - destruct skip as [|k]; cbn [split_from replace_from]; [|apply IH].
    destruct (starts_with old (String c s)).
    + rewrite join_cons by apply split_from_nonempty.
      now rewrite IH.
    + rewrite IH. now rewrite append_assoc.
Qed.

Lemma replace_as_join_split (old new s : string) :
  replace old new s = join new (split old s).
Proof.
  unfold replace, split. now rewrite join_split_from_replace.
Qed.

Lemma starts_with_length (p s : string) :
  starts_with p s = true -> (String.length p <= String.length s)%nat.
Proof.
  revert s; induction p as [|a p IH]; intros s H; simpl; [lia|].
  destruct s as [|b s]; [discriminate|].
  simpl in H. apply andb_true_iff in H as [_ H].
  specialize (IH s H). simpl. lia.
Qed.

(** The pass over [", ,"] never lengthens a string, and passes over the
    characters it is told to skip. *)
Lemma collapse_length (s : string) :
  forall skip,
    (String.length (replace_from ", ," "," skip s)
     <= String.length s - skip)%nat.
Proof.
  induction s as [|c s IH]; intros skip; [simpl; lia|].
  destruct skip as [|k]; cbn [replace_from].
  - destruct (starts_with ", ," (String c s)) eqn:E.
    + apply starts_with_length in E.
      specialize (IH 2%nat). simpl in *. lia.
    + specialize (IH 0%nat). simpl in *. lia.
  - specialize (IH k). simpl. lia.
Qed.

(** It shortens every string that holds a [", ,"]. *)
Lemma collapse_shortens (s : string) :
  contains ", ," s = true ->
  (String.length (replace_from ", ," "," 0 s) < String.length s)%nat.
Proof.
  induction s as [|c s IH]; intros H; [discriminate|].
  cbn [contains] in H. cbn [replace_from].
  destruct (starts_with ", ," (String c s)) eqn:E.
  - apply starts_with_length in E.
    pose proof (collapse_length s 2) as L. simpl in *. lia.
  - simpl in H. specialize (IH H). simpl. lia.
Qed.

Lemma collapse_fixed_iff (s : string) :
  replace ", ," "," s = s <-> contains ", ," s = false.
Proof.
  split.
  - intros H. destruct (contains ", ," s) eqn:E; [|reflexivity].
    apply collapse_shortens in E. unfold replace in H.
    rewrite H in E. lia.
  - apply replace_from_absent.
Qed.

End ReplaceFacts.

(** C9 (amended): [stringify_tags] joins with [", "] and replaces the
    non-overlapping occurrences of [", ,"], scanned left to right, by
    [","]: its output is the [","]-join of the pieces that the [", "]-join
    falls into when split on [", ,"].  One pass is not a fixpoint:
    splitting the output on [", "] and serializing the pieces reproduces
    it exactly when the output holds no [", ,"] any more. *)
Theorem C9_stringify_split_stable (tags : list string) :
  stringify_tags tags
  = PyStr.join "," (PyStr.split ", ," (PyStr.join ", " tags)) /\
  (stringify_tags (PyStr.split ", " (stringify_tags tags))
   = stringify_tags tags
   <-> PyStr.contains ", ," (stringify_tags tags) = false).
Proof.
  split.
  - unfold stringify_tags. apply replace_as_join_split.
  - rewrite stringify_split. apply collapse_fixed_iff.
Qed.

Lemma C9_stringify_split_stable_witness :
  stringify_tags ["a"; ""; "b"] = "a, b" /\
  stringify_tags (PyStr.split ", " (stringify_tags ["a"; ""; "b"]))
  = stringify_tags ["a"; ""; "b"] /\
  stringify_tags (PyStr.split ", " (stringify_tags ["a"; ""; ""; "b"]))
  <> stringify_tags ["a"; ""; ""; "b"].
Proof.
  split; [|split].
  - destruct (C9_stringify_split_stable ["a"; ""; "b"]) as [E _].
    rewrite E. reflexivity.
  - apply (C9_stringify_split_stable ["a"; ""; "b"]). reflexivity.
  - intros H.
    apply (C9_stringify_split_stable ["a"; ""; ""; "b"]) in H.
    discriminate H.
Defined.

(** * The repeat range and the probability test on weighted tags *)

Section WeightedFacts.

Variable G : Generator.
Variable py_float : string -> result Q.

(** Over a non-empty tag list that the parser accepts with positive
    weights, every count up to the size of the list is served: the draw
    returns that many of the names, taken at distinct positions. *)
Lemma draw_names_weighted (rng : rng_state G) (tags : list pyval)
  (names : list string) (ws : list Q) (k : Z) :
  parse_entries py_float tags = Ok (names, ws) ->
  Forall (fun w => 0 < w) ws ->
  tags <> [] ->
  (0 <= k <= Z.of_nat (List.length tags))%Z ->
  exists sel,
    draw_names G py_float rng (VList tags) (VInt k) = Ok sel /\
    List.length sel = Z.to_nat k /\
    incl sel names /\
    (NoDup names -> NoDup sel).
Proof.
  intros Hparse Hpos Hne Hk.
  destruct (parse_entries_length py_float _ _ _ Hparse) as [Ln Lw].
  assert (Hws : ws <> [])
    by (destruct ws; [destruct tags; [congruence | discriminate]
                     | discriminate]).
  unfold draw_names, parse_tag_distribution. cbn [py_iter bind].
  rewrite Hparse. cbn [bind py_size].
  destruct (Z.ltb_spec k 0); [lia|]. cbn [bind].
  destruct (choice_ok G rng names (Z.to_nat k)
              (map (fun w => w / Qsum ws) ws)) as (idx & E & L & ND & B).
  - rewrite length_map. congruence.
  - now apply normalised_positive.
  - apply Qsum_normalised. intros E.
    pose proof (Qsum_positive ws Hws Hpos) as Hp.
    rewrite E in Hp. exact (Qlt_irrefl _ Hp).
  - lia.
  - exists (map (fun i => nth i names "") idx). repeat split.
    + exact E.
    + now rewrite length_map.
    + now apply drawn_incl.
    + intros Hn. now apply drawn_NoDup.
Qed.

(** What [select_tags] does on a node without a [list] field, once the
    repeat count is known. *)
Lemma select_tags_after_repeat (self_seed : Z) (s : option Z)
  (d : list (string * pyval)) (tg p0 n0 n1 : pyval)
  (rng1 : rng_state G) :
  PyDict.lookup d "list" = None ->
  PyDict.lookup d "tags" = Some tg ->
  draw_repeat G (default_rng G (seed_or s self_seed)) tg
    (PyDict.get d "repeat" n0) = Ok (n1, rng1) ->
  select_tags G py_float self_seed (VDict d) p0 n0 s =
  (skipped <- py_gt (fst (rng_random G rng1))
                (PyDict.get d "probability" p0) ;;
   if skipped : bool then Ok ""
   else draw_tags G py_float (snd (rng_random G rng1)) tg n1).
Proof.
  intros Hlist Htags Hrep.
  rewrite select_tags_dict. cbv zeta. rewrite Hlist. cbn [bind].
  rewrite (fire_tags G _ _ _ _ _ Htags), Hrep. cbn [bind].
  destruct (py_gt _ _) as [[|]|e]; reflexivity.
Qed.

(** C5 (amended): on a node without a [list] field whose tags are a
    list of [P] entries and whose repeat is a range [[lo, hi]] with
    [lo < P < hi], the count drawn is an integer from [lo] up to
    [P - 1]: the clamped upper bound [P] is itself excluded.  The node
    then applies its probability test and, unless skipped, draws that
    many tags; when the parser accepts the entries with positive weights
    and [lo] is not negative, the draw returns that many names, taken
    at distinct positions.  For ["x", "y", "z"] with repeat [[1, 5]]
    this is 1 or 2 tags. *)
Theorem C5_range_count_below_pool (self_seed : Z) (s : option Z)
  (d : list (string * pyval)) (tags : list pyval) (lo hi : Z)
  (p0 n0 : pyval) :
  PyDict.lookup d "list" = None ->
  PyDict.lookup d "tags" = Some (VList tags) ->
  PyDict.lookup d "repeat" = Some (VList [VInt lo; VInt hi]) ->
  (lo < Z.of_nat (List.length tags))%Z ->
  (Z.of_nat (List.length tags) < hi)%Z ->
  exists k rng1,
    draw_repeat G (default_rng G (seed_or s self_seed))
      (VList tags) (VList [VInt lo; VInt hi]) = Ok (VInt k, rng1) /\
    (lo <= k <= Z.of_nat (List.length tags) - 1)%Z /\
    select_tags G py_float self_seed (VDict d) p0 n0 s =
    (skipped <- py_gt (fst (rng_random G rng1))
                  (PyDict.get d "probability" p0) ;;
     if skipped : bool then Ok ""
     else draw_tags G py_float (snd (rng_random G rng1))
            (VList tags) (VInt k)) /\
    (forall names ws,
        parse_entries py_float tags = Ok (names, ws) ->
        Forall (fun w => 0 < w) ws ->
        (0 <= lo)%Z ->
        exists sel,
          draw_names G py_float (snd (rng_random G rng1))
            (VList tags) (VInt k) = Ok sel /\
          List.length sel = Z.to_nat k /\
          incl sel names /\
          (NoDup names -> NoDup sel)).
Proof.
  intros Hlist Htags Hrep Hlo Hhi.
  destruct (draw_repeat_range G (default_rng G (seed_or s self_seed))
              tags lo hi) as (k & rng1 & E & B); [lia|].
  exists k, rng1. split; [exact E|]. split; [lia|]. split.
  - apply select_tags_after_repeat; try assumption.
    unfold PyDict.get. now rewrite Hrep.
  - intros names ws Hparse Hpos Hlo0.
    apply (draw_names_weighted _ tags names ws k Hparse Hpos); [|lia].
    intros ->. simpl in Hlo. lia.
Qed.


End WeightedFacts.


Lemma C5_range_count_below_pool_witness :
  exists k rng1 sel,
    draw_repeat counter_rng (default_rng counter_rng (seed_or None 7))
      (VList (map VStr ["x"; "y"; "z"])) (VList [VInt 1; VInt 5])
    = Ok (VInt k, rng1) /\
    (1 <= k <= 2)%Z /\
    draw_names counter_rng float_of_digits
      (snd (rng_random counter_rng rng1))
      (VList (map VStr ["x"; "y"; "z"])) (VInt k) = Ok sel /\
    List.length sel = Z.to_nat k /\
    incl sel ["x"; "y"; "z"] /\
    NoDup sel.
Proof.
  destruct (C5_range_count_below_pool counter_rng float_of_digits 7 None
              xyz_node (map VStr ["x"; "y"; "z"]) 1 5 (VInt 1) (VInt 1))
    as (k & rng1 & E & B & _ & D).
  - reflexivity.
  - reflexivity.
  - reflexivity.
  - simpl; lia.
  - simpl; lia.
  - destruct (D ["x"; "y"; "z"] [1; 1; 1]) as (sel & Hd & L & I & ND).
    + reflexivity.
    + repeat constructor.
    + lia.
    + exists k, rng1, sel. simpl in B. repeat split; try assumption; try lia.
      apply ND. repeat constructor; simpl; intuition discriminate.
Defined.



(** * The names of the input list *)

Lemma split_colon_head (s : string) :
  forall cur,
    cur ++ s = hd "" (PyStr.split_from ":" 0 cur s) \/
    exists rest,
      cur ++ s = hd "" (PyStr.split_from ":" 0 cur s) ++ ":" ++ rest.
Proof.
  induction s as [|x s IH]; intros cur.
  - left. simpl. apply append_nil_r.
  - cbn [PyStr.split_from PyStr.starts_with]. rewrite andb_true_r.
    destruct (Ascii.eqb ":" x) eqn:E.
    + apply Ascii.eqb_eq in E. subst x. right. exists s. reflexivity.
    + cbn [String.length Nat.sub].
      replace (cur ++ String x s) with ((cur ++ String x "") ++ s)
        by (now rewrite append_assoc).
      apply IH.
Qed.

(** The name offered for an entry: a colon-free text that is the whole
    entry, or is followed in the entry by a colon. *)
Definition name_of_entry (tag name : string) : Prop :=
  PyStr.contains ":" name = false /\
  (tag = name \/ exists rest, tag = name ++ ":" ++ rest).

(** X7: on a sequence of strings [build_inputs_list] never fails; it
    offers ["random"] first and then, entry by entry and in order, the
    text of the entry before its first colon (the whole entry when it
    has none). *)
Theorem build_inputs_list_names (l : list string) :
  exists names,
    build_inputs_list (VList (map VStr l)) = Ok ("random" :: names) /\
    Forall2 name_of_entry l names.
Proof.
  unfold build_inputs_list. cbn [py_iter bind].
  rewrite entry_names_strings. cbn [bind].
  eexists. split; [reflexivity|].
  induction l as [|t l IH]; cbn [map]; constructor; [|exact IH].
  split.
  - unfold PyStr.split. now apply split_from_head_free.
  - exact (split_colon_head t "").
Qed.

(** * Successive calls on one node *)



Section NodeCalls.

Variable comp : Type.
Variable comp_has_seed : comp -> bool.
Variable comp_set_seed : Z -> comp -> comp.
Variable comp_str : comp -> result string.
Variable get_nested_dict_value : list (string * pyval) -> pyval -> result pyval.
Variable build_components :
  Z -> list (string * pyval) -> list (string * comp)
  -> result (list (string * comp)).

Abbreviation run := 
  (run_node comp comp_has_seed comp_set_seed comp_str
     get_nested_dict_value build_components).
Abbreviation upd := (update_data get_nested_dict_value).





(** The value each input left in the data: what its lookup found in the
    data as the earlier inputs of the call had left it. *)
Lemma update_data_written (pre : list (string * pyval)) (arg : string)
  (value : pyval) (post : list (string * pyval)) :
  forall d output,
    NoDup (map fst (pre ++ (arg, value) :: post)) ->
    snd (upd d output (pre ++ (arg, value) :: post)) = None ->
    is_random value = false ->
    exists o,
      get_nested_dict_value (fst (upd d output pre)) value = Ok o /\
      PyDict.lookup (fst (upd d output (pre ++ (arg, value) :: post))) arg
      = Some o.
Proof.
  induction pre as [|[a v] pre IH]; intros d output Hnd Hok Hr.
  - cbn [app update_data fst] in *. rewrite Hr in *. cbn [negb] in *.
    destruct (get_nested_dict_value d value) as [o|e]; [|discriminate].
    exists o. split; [reflexivity|].
    simpl in Hnd. inversion Hnd as [|? ? Hnotin _]; subst.
    rewrite (update_data_frame get_nested_dict_value post _ _ arg Hnotin).
    apply lookup_set_same.
  - cbn [app update_data] in *.
    simpl in Hnd. inversion Hnd as [|? ? _ Hnd']; subst.
    destruct (if negb (is_random v) then _ else _) as [o'|e];
      [|discriminate].
    now apply IH.
Qed.



(** C3 (amended): only the components are rebuilt before a prompt is
    produced.  The data is not: a call leaves every entry that no input
    names as it was and, when it returns, leaves under the name of each
    input that is not ["random"] the value looked up for it in the data
    as the earlier inputs of the call had left it.  A second call on
    the same instance starts from that data: it answers as a first call
    on a node constructed with the data and the components the first
    call left, whatever seed that node is given. *)
Theorem C3_data_persists_between_calls (nd : node comp) (s1 s2 s0 : Z)
  (kwargs1 kwargs2 : list (string * pyval)) :
  let nd1 := snd (run nd s1 kwargs1) in
  (forall k, ~ In k (map fst kwargs1) ->
             PyDict.lookup (data nd1) k = PyDict.lookup (data nd) k) /\
  (is_ok (fst (run nd s1 kwargs1)) = true ->
   NoDup (map fst kwargs1) ->
   forall (pre : list (string * pyval)) arg value post,
     kwargs1 = (pre ++ (arg, value) :: post)%list ->
     is_random value = false ->
     exists o,
       get_nested_dict_value (fst (upd (data nd) None pre)) value = Ok o /\
       PyDict.lookup (data nd1) arg = Some o) /\
  (is_ok (fst (run nd s1 kwargs1)) = true ->
   build_components s1 (data nd1)
     (components (update_seed comp comp_has_seed comp_set_seed nd s1))
   = Ok (components nd1)) /\
  fst (run nd1 s2 kwargs2)
  = fst (run (init comp s0 (data nd1) (components nd1)) s2 kwargs2).
Proof.
  cbv zeta. repeat split.
  - intros k Hk. rewrite run_node_data. now apply update_data_frame.
  - intros Hok Hnd pre arg value post -> Hr.
    rewrite run_node_data.
    apply update_data_written; try assumption.
    exact (run_node_ok_loop comp comp_has_seed comp_set_seed comp_str
             get_nested_dict_value build_components nd s1 _ Hok).
  - apply run_node_components.
  - now apply run_node_reads_config.
Qed.

End NodeCalls.






Lemma C3_data_persists_between_calls_witness :
  exists o,
    dotted_lookup (fst (update_data dotted_lookup keep_data None
                          [("x", VStr "k")])) (VStr "x") = Ok o /\
    PyDict.lookup
      (data (snd (Node_run_node (init string 0 keep_data []) 3
                    [("x", VStr "k"); ("y", VStr "x")]))) "y"
    = Some o.
Proof.
  destruct (C3_data_persists_between_calls string (fun _ => false)
              (fun _ c => c) (fun c => Ok c) dotted_lookup
              Node_build_components (init string 0 keep_data []) 3 3 0
              [("x", VStr "k"); ("y", VStr "x")] [])
    as (_ & Hw & _ & _).
  apply (Hw eq_refl) with (post := []).
  - repeat constructor; simpl; intuition discriminate.
  - reflexivity.
  - reflexivity.
Defined.
